(** * Vit Healthcare: triage and semantic matching pipeline

    A shallow embedding of [main.py] (knowledge-base loader, embedding
    client, cosine similarity, rule-based risk score, the
    [/api/prescription/start] handler) and of the OTP helpers of
    [email_service.py], with the properties of the specification stated
    and settled against it.

    Conventions of the embedding:
    - a Python [str] is a [string] whose characters are the code points
      below 256; [lower] and [strip] follow Python on that range;
    - a Python [float] is a primitive binary64 [float]; [int] is [Z];
    - a Python [dict] with string keys is an association list kept in
      insertion order ([dict_set] updates a key in place, a lookup takes
      the first binding); the OTP store, which is only used as a map, is
      a [gmap];
    - an uncaught Python exception other than [HTTPException] is a
      [Fault]: the framework answers all of them with status 500;
    - I/O (the embedding provider, the SMTP relay, the clock, the random
      source) goes through an explicit trace of events; a path names no
      file, a file that cannot be read, or a text; [time.sleep] refuses a
      delay that is negative or beyond what the platform takes. *)

From Stdlib Require Import ZArith List Bool Ascii String Lia Floats.
From stdpp Require Import base option list strings gmap.

Local Open Scope string_scope.
Local Open Scope list_scope.
Local Open Scope Z_scope.

(** ** Python strings *)

Module PyStr.

Definition chr (n : nat) : ascii := ascii_of_nat n.

Definition nl : string := String (chr 10) "".

(** [str.isspace] on one character, code points below 256. *)
Definition is_space (c : ascii) : bool :=
  let n := nat_of_ascii c in
  ((9 <=? n) && (n <=? 13))%nat || ((28 <=? n) && (n <=? 32))%nat
  || (n =? 133)%nat || (n =? 160)%nat.

(** [str.lower] on one character: A-Z, and the Latin-1 capitals
    U+00C0..U+00DE except the multiplication sign U+00D7. *)
Definition lower_char (c : ascii) : ascii :=
  let n := nat_of_ascii c in
  if ((65 <=? n) && (n <=? 90))%nat
     || ((192 <=? n) && (n <=? 222) && negb (n =? 215))%nat
  then ascii_of_nat (n + 32) else c.

Fixpoint lower (s : string) : string :=
  match s with
  | EmptyString => EmptyString
  | String c s' => String (lower_char c) (lower s')
  end.

(** [sub in s] *)
Fixpoint contains (sub s : string) : bool :=
  String.prefix sub s ||
  match s with
  | EmptyString => false
  | String _ s' => contains sub s'
  end.

Fixpoint lstrip (s : string) : string :=
  match s with
  | EmptyString => EmptyString
  | String c s' => if is_space c then lstrip s' else s
  end.

(** [rstrip]: a character is kept when it is not a space or something
    is kept after it. *)
Fixpoint rstrip (s : string) : string :=
  match s with
  | EmptyString => EmptyString
  | String c s' =>
      match rstrip s' with
      | EmptyString => if is_space c then EmptyString else String c EmptyString
      | r => String c r
      end
  end.

Definition strip (s : string) : string := rstrip (lstrip s).

(** [s.split(sep)] for a non-empty [sep]: the fields between the
    non-overlapping occurrences of [sep], found from the left.  [skip]
    counts the characters of an occurrence still to be passed over; the
    result is the field being read and the fields after it. *)
Fixpoint split_from (sep : string) (skip : nat) (s : string)
  : string * list string :=
  match s with
  | EmptyString => (EmptyString, [])
  | String c s' =>
      match skip with
      | S k => split_from sep k s'
      | O =>
          if String.prefix sep s then
            let '(f, fs) := split_from sep (String.length sep - 1) s' in
            (EmptyString, f :: fs)
          else
            let '(f, fs) := split_from sep 0 s' in
            (String c f, fs)
      end
  end.

Definition split (sep s : string) : list string :=
  let '(f, fs) := split_from sep 0 s in f :: fs.

(** [s.split(sep, 1)] for a one-character [sep] that occurs in [s]:
    the text before and after the first occurrence ([None] when there
    is none, where Python returns a one-element list). *)
Fixpoint split_once (sep : ascii) (s : string) : option (string * string) :=
  match s with
  | EmptyString => None
  | String c s' =>
      if Ascii.eqb c sep then Some (EmptyString, s')
      else match split_once sep s' with
           | Some (k, v) => Some (String c k, v)
           | None => None
           end
  end.

End PyStr.

(** ** Risk scorer *)

(** [rule_based_risk_score], main.py lines 125-134. *)
Definition rule_based_risk_score (age : Z) (sex symptoms add_symptoms : string) : Z :=
  let total := 0 in
  let txt := PyStr.lower (symptoms +:+ " " +:+ add_symptoms) in
  let total :=
    if PyStr.contains "chest pain" txt || PyStr.contains "breath" txt
    then total + 4 else total in
  let total := if PyStr.contains "bleeding" txt then total + 4 else total in
  let total := if PyStr.contains "fever" txt then total + 2 else total in
  let total := if PyStr.contains "rash" txt then total + 1 else total in
  let total := if 60 <? age then total + 3 else total in
  let total := if String.eqb (PyStr.lower sex) "male" then total + 1 else total in
  Z.min 100 (total * 10).

(** ** Python values, dictionaries, exceptions *)

#[warnings="-register-all"] Inductive pyval : Type :=
| PNone
| PBool (b : bool)
| PInt (z : Z)
| PFloat (f : float)
| PStr (s : string)
| PList (l : list pyval)
| PDict (d : list (string * pyval)).

(** A [dict] with string keys, in insertion order. *)
Abbreviation dict := (list (string * pyval)).

Fixpoint dict_lookup (k : string) (d : dict) : option pyval :=
  match d with
  | [] => None
  | (k', v) :: d' => if String.eqb k k' then Some v else dict_lookup k d'
  end.

(** [k in d] *)
Definition dict_mem (k : string) (d : dict) : bool :=
  match dict_lookup k d with Some _ => true | None => false end.

(** [d.get(k)] *)
Definition dict_get (d : dict) (k : string) : pyval :=
  match dict_lookup k d with Some v => v | None => PNone end.

(** [d[k] = v]: an existing key keeps its place. *)
Fixpoint dict_set (k : string) (v : pyval) (d : dict) : dict :=
  match d with
  | [] => [(k, v)]
  | (k', v') :: d' =>
      if String.eqb k k' then (k', v) :: d' else (k', v') :: dict_set k v d'
  end.

(** [bool(v)] *)
Definition truthy (v : pyval) : bool :=
  match v with
  | PNone => false
  | PBool b => b
  | PInt z => negb (z =? 0)
  | PFloat f => negb (f =? 0)%float
  | PStr s => negb (String.eqb s "")
  | PList l => match l with [] => false | _ => true end
  | PDict d => match d with [] => false | _ => true end
  end.

(** [HTTPException] is what the handler raises on purpose; [Fault] is any
    other uncaught exception (TypeError, ZeroDivisionError, OverflowError,
    ValueError). *)
Inductive exn : Type :=
| HTTPException (status_code : Z) (detail : string)
| Fault.

Inductive outcome (A : Type) : Type :=
| Return (a : A)
| Raise (e : exn).
Arguments Return {A} a.
Arguments Raise {A} e.

#[export] Instance outcome_ret : MRet outcome := fun A a => Return a.
#[export] Instance outcome_bind : MBind outcome := fun A B k m =>
  match m with
  | Return a => k a
  | Raise e => Raise e
  end.

(** ** Numbers *)

Inductive num : Type :=
| NInt (z : Z)
| NFloat (f : float).

(** [float(z)]: rounding to nearest even, OverflowError beyond the range. *)
Definition float_of_int (z : Z) : outcome float :=
  let f := SF2Prim (binary_normalize prec emax z 0 false) in
  if is_infinity f then Raise Fault else Return f.

Definition to_float (n : num) : outcome float :=
  match n with
  | NInt z => float_of_int z
  | NFloat f => Return f
  end.

(** The operand of an arithmetic operator: [bool] is a subclass of [int]. *)
Definition num_of (v : pyval) : outcome num :=
  match v with
  | PBool b => Return (NInt (if b then 1 else 0))
  | PInt z => Return (NInt z)
  | PFloat f => Return (NFloat f)
  | _ => Raise Fault
  end.

Definition num_mul (a b : num) : outcome num :=
  match a, b with
  | NInt x, NInt y => Return (NInt (x * y))
  | _, _ => x ← to_float a; y ← to_float b; Return (NFloat (x * y)%float)
  end.

Definition num_add (a b : num) : outcome num :=
  match a, b with
  | NInt x, NInt y => Return (NInt (x + y))
  | _, _ => x ← to_float a; y ← to_float b; Return (NFloat (x + y)%float)
  end.

(** [a * b] inside [sum(...)].  With an operand that is not a number the
    product raises TypeError, or it is a repeated sequence, which [sum]
    cannot add to its integer start value: a fault either way. *)
Definition py_mul (a b : pyval) : outcome num :=
  x ← num_of a; y ← num_of b; num_mul x y.

(** [sum(a*b for a, b in ps)], from the accumulator [acc] (initially the
    integer 0), added from left to right with the rounding of [+] at each
    step (CPython from 3.12 on compensates the rounding error of a sum of
    floats, which can change the last bits of the result). *)
Fixpoint sum_products (acc : num) (ps : list (pyval * pyval)) : outcome num :=
  match ps with
  | [] => Return acc
  | (a, b) :: ps' =>
      p ← py_mul a b; acc' ← num_add acc p; sum_products acc' ps'
  end.

(** [math.sqrt]: ValueError below zero. *)
Definition math_sqrt (n : num) : outcome float :=
  x ← to_float n;
  if (x <? 0)%float then Raise Fault else Return (sqrt x).

(** [n / d] for a float [d]: ZeroDivisionError when [d] is zero. *)
Definition true_div (n : num) (d : float) : outcome float :=
  x ← to_float n;
  if (d =? 0)%float then Raise Fault else Return (x / d)%float.

(** [iter(v)]: the elements of a list, the characters of a string, the
    keys of a dict; TypeError for anything else. *)
Definition py_iter (v : pyval) : outcome (list pyval) :=
  match v with
  | PList l => Return l
  | PStr s => Return (map (fun c => PStr (String c "")) (list_ascii_of_string s))
  | PDict d => Return (map (fun kv => PStr (fst kv)) d)
  | _ => Raise Fault
  end.

(** ** Cosine similarity *)

(** [cosine_similarity], main.py lines 96-104. *)
Definition cosine_similarity (v1 v2 : pyval) : outcome float :=
  if negb (truthy v1) || negb (truthy v2) then Return 0%float
  else
    xs ← py_iter v1;
    ys ← py_iter v2;
    dot ← sum_products (NInt 0) (zip xs ys);
    sq1 ← sum_products (NInt 0) (map (fun a => (a, a)) xs);
    norm1 ← math_sqrt sq1;
    sq2 ← sum_products (NInt 0) (map (fun a => (a, a)) ys);
    norm2 ← math_sqrt sq2;
    if (norm1 =? 0)%float || (norm2 =? 0)%float then Return 0%float
    else true_div dot (norm1 * norm2)%float.

(** ** The outside world and the trace of calls *)

Inductive event : Type :=
| EvPostEmbeddings (model prompt : string)  (* requests.post(OLLAMA_URL/api/embeddings) *)
| EvGetTags                                 (* requests.get(url/api/tags) *)
| EvSleep (seconds : Z)                     (* time.sleep *)
| EvSendMail (to_email subject body filename file_bytes : string).

(** A path as [read_otc_file] meets it: nothing is there
    ([os.path.exists] is False), something is there that [open] or [read]
    fails on (no permission, a directory, bytes that are not UTF-8), or a
    file whose text, after newline translation, is [content]. *)
Inductive file : Type :=
| Missing
| Unreadable
| Readable (content : string).

(** What the program cannot decide by itself.  Every answer may depend on
    the calls made so far. *)
Record world : Type := {
  files : string -> file;
  (* the longest delay, in seconds, [time.sleep] takes: CPython refuses a
     delay whose nanoseconds do not fit 64 bits (OverflowError), the
     operating system one that ends beyond its clock (OSError) *)
  sleep_limit : list event -> Z;
  (* the parsed JSON body of a successful POST; [None] for anything that
     raises inside the [try] (transport, timeout, status, malformed body) *)
  post_embeddings : list event -> string -> string -> option pyval;
  (* the status code of the liveness probe; [None] when it raises *)
  get_tags : list event -> option Z;
  (* ''.join(random.choices(string.digits, k=size)) *)
  random_digits : list event -> nat -> string;
  (* datetime.now().strftime("%Y-%m-%d") *)
  now_date : list event -> string;
  (* the bytes reportlab produces for a prescription *)
  generate_pdf : dict -> string;
  (* str(v) for a value that is neither a str nor None *)
  repr : pyval -> string
}.

Definition io (A : Type) : Type := list event -> outcome A * list event.

#[export] Instance io_ret : MRet io := fun A a t => (Return a, t).
#[export] Instance io_bind : MBind io := fun A B k m t =>
  match m t with
  | (Return a, t') => k a t'
  | (Raise e, t') => (Raise e, t')
  end.

Definition emit (ev : event) : io unit := fun t => (Return tt, t ++ [ev]).
Definition observe {A : Type} (f : list event -> A) : io A := fun t => (Return (f t), t).
Definition lift {A : Type} (o : outcome A) : io A := fun t => (o, t).

(** ** Configuration *)

Definition E5_MODEL : string := "nomic-embed-text".
Definition OTC_FILE_PATH : string := "OTC_Drugs_E5_Format.txt".

(** ** Knowledge base *)

Definition colon : ascii := ":"%char.

(** One line of a block that contains a colon: [k, v = line.split(":", 1)]
    then [entry[k.strip()] = v.strip()]. *)
Definition add_field (entry : dict) (line : string) : dict :=
  match PyStr.split_once colon line with
  | Some (k, v) => dict_set (PyStr.strip k) (PStr (PyStr.strip v)) entry
  | None => entry (* not reached: the line contains a colon *)
  end.

(** The body of the loop over blocks, main.py lines 70-74. *)
Definition parse_block (block : string) : dict :=
  let lines :=
    map PyStr.strip
        (List.filter (PyStr.contains ":") (PyStr.split PyStr.nl block)) in
  fold_left add_field lines [].

(** [read_otc_file], main.py lines 62-78.  Only a missing file is
    answered with the empty list; [open] and [read] are outside any [try],
    so what they raise leaves the function. *)
Definition read_otc_file (w : world) (filepath : string) : outcome (list dict) :=
  let entries := [] in
  match files w filepath with
  | Missing => Return entries
  | Unreadable => Raise Fault
  | Readable content =>
      let raw := PyStr.split (PyStr.nl +:+ PyStr.nl) (PyStr.strip content) in
      Return
        (fold_left
           (fun entries block =>
              let entry := parse_block block in
              if dict_mem "Condition" entry then entries ++ [entry] else entries)
           raw entries)
  end.

(** ** Embedding provider *)

(** The three branches on the shape of the response, main.py lines 85-91. *)
Definition embedding_of_response (data : pyval) : pyval :=
  match data with
  | PDict d =>
      if dict_mem "embedding" d then dict_get d "embedding"
      else if dict_mem "embeddings" d then dict_get d "embeddings"
      else PNone
  | PList (x :: _) => x
  | _ => PNone
  end.

(** [ollama_embeddings], main.py lines 80-94. *)
Definition ollama_embeddings (w : world) (text : string) : io pyval :=
  emit (EvPostEmbeddings E5_MODEL text);;
  reply ← observe (fun t => post_embeddings w t E5_MODEL text);
  match reply with
  | Some data => mret (embedding_of_response data)
  | None => mret PNone
  end.

(** [time.sleep(seconds)] for an [int]: ValueError below zero,
    OverflowError or OSError above what the platform takes. *)
Definition time_sleep (w : world) (seconds : Z) : io unit := fun t =>
  if (seconds <? 0) || (sleep_limit w t <? seconds) then (Raise Fault, t)
  else (Return tt, t ++ [EvSleep seconds]).

(** [check_ollama_ready], main.py lines 141-153: [n] attempts are left.
    The probe is inside the [try], the sleep of line 152 is not. *)
Fixpoint check_attempts (w : world) (delay : Z) (n : nat) : io bool :=
  match n with
  | O => mret false
  | S n' =>
      emit EvGetTags;;
      status ← observe (get_tags w);
      match status with
      | Some 200 => mret true
      | _ => time_sleep w delay;; check_attempts w delay n'
      end
  end.

Definition check_ollama_ready (w : world) (retries delay : Z) : io bool :=
  check_attempts w delay (Z.to_nat retries).

(** The body of the loop of main.py lines 158-165.  The entries come
    from [read_otc_file], so a condition is a string. *)
Definition embed_entry (w : world) (entry : dict) : io dict :=
  match dict_lookup "Condition" entry with
  | Some (PStr condition) =>
      if negb (String.eqb condition "") then
        v ← ollama_embeddings w condition;
        mret (dict_set "embedding" v entry)
      else mret entry
  | _ => mret entry
  end.

Fixpoint embed_entries (w : world) (data : list dict) : io (list dict) :=
  match data with
  | [] => mret []
  | entry :: rest =>
      entry' ← embed_entry w entry;
      rest' ← embed_entries w rest;
      mret (entry' :: rest')
  end.

(** Module start-up, main.py lines 139 and 156-170: the value of
    [OTC_DATA] the handler reads. *)
Definition startup (w : world) : io (list dict) :=
  OTC_DATA ← lift (read_otc_file w OTC_FILE_PATH);
  ready ← check_ollama_ready w 10 5;
  if ready : bool then embed_entries w OTC_DATA
  else mret (map (dict_set "embedding" PNone) OTC_DATA).

(** ** The prescription handler *)

(** The scan of main.py lines 194-198, entered with
    [best_match, best_score = None, 0].  A similarity is always a float,
    and comparing a float with the integer 0 is comparing it with 0.0. *)
Fixpoint best_match_loop (user_vec : pyval) (data : list dict)
    (best_match : option dict) (best_score : float)
  : outcome (option dict * float) :=
  match data with
  | [] => Return (best_match, best_score)
  | e :: rest =>
      sim ← cosine_similarity user_vec (dict_get e "embedding");
      if (best_score <? sim)%float
      then best_match_loop user_vec rest (Some e) sim
      else best_match_loop user_vec rest best_match best_score
  end.

(** [str(v)] inside an f-string. *)
Definition py_str (w : world) (v : pyval) : string :=
  match v with
  | PStr s => s
  | PNone => "None"
  | _ => repr w v
  end.

(** [generate_id("P")], main.py lines 59-60. *)
Definition generate_id (w : world) (prefix : string) (size : nat) : io string :=
  digits ← observe (fun t => random_digits w t size);
  mret (prefix +:+ digits).

(** [EmailService.send_email_with_attachment]: every failure is caught,
    and the handler does not look at the result. *)
Definition send_email_with_attachment
    (to_email subject body filename file_bytes : string) : io unit :=
  emit (EvSendMail to_email subject body filename file_bytes).

Definition high_risk_response (risk : Z) : dict :=
  [("ok", PBool true); ("risk_score", PInt risk);
   ("message", PStr "High risk detected. Book ambulance.")].

Definition no_match : exn := HTTPException 404 "No match found".

(** [generate_prescription], main.py lines 178-230.  [OTC_DATA] is the
    module-level list built at start-up; an absent or empty
    [patient_email] is [None] or [Some ""]. *)
Definition generate_prescription (w : world) (OTC_DATA : list dict)
    (name : string) (age : Z) (sex blood_group symptoms additional_symptoms : string)
    (patient_email : option string) : io dict :=
  let risk := rule_based_risk_score age sex symptoms additional_symptoms in
  if 50 <=? risk then mret (high_risk_response risk)
  else
    user_vec ← ollama_embeddings w (symptoms +:+ " " +:+ additional_symptoms);
    best ← lift (best_match_loop user_vec OTC_DATA None 0%float);
    match best with
    | (None, _) | (Some [], _) => lift (Raise no_match)
    | (Some best_match, best_score) =>
        presc_id ← generate_id w "P" 6;
        today ← observe (now_date w);
        let prescription : dict :=
          [("Prescription ID", PStr presc_id);
           ("Date", PStr today);
           ("Name", PStr name);
           ("Age", PInt age);
           ("Sex", PStr sex);
           ("Blood Group", PStr blood_group);
           ("Condition", dict_get best_match "Condition");
           ("Generic Name", dict_get best_match "Generic Name");
           ("OTC Brand Names", dict_get best_match "OTC Brand Names");
           ("Precaution Measures", dict_get best_match "Precaution Measures");
           ("Dosages", dict_get best_match "Dosages");
           ("Duration", dict_get best_match "Duration");
           ("Age Suitability", dict_get best_match "Age Suitability")] in
        let pdf_bytes := generate_pdf w prescription in
        match patient_email with
        | Some to_email =>
            if negb (String.eqb to_email "") then
              let subject := "Prescription " +:+ presc_id +:+ " - Vit Healthcare" in
              let body :=
                "Dear " +:+ name +:+ "," +:+ PyStr.nl +:+ PyStr.nl
                +:+ "Your AI-generated prescription for "
                +:+ py_str w (dict_get best_match "Condition")
                +:+ " is attached." +:+ PyStr.nl +:+ PyStr.nl
                +:+ "Stay healthy," +:+ PyStr.nl +:+ "Vit Healthcare" in
              send_email_with_attachment to_email subject body
                ("prescription_" +:+ presc_id +:+ ".pdf") pdf_bytes
            else mret tt
        | None => mret tt
        end;;
        mret [("ok", PBool true); ("risk_score", PInt risk);
              ("similarity", PFloat best_score);
              ("prescription", PDict prescription)]
    end.

(** ** OTP bookkeeping ([email_service.py]) *)

Module EmailService.

(** [generate_otp], lines 25-28; [otp] is the decimal text of the
    random draw. *)
Definition generate_otp (otp email : string) (otp_storage : gmap string string)
  : string * gmap string string :=
  (otp, <[email := otp]> otp_storage).

(** [verify_otp], lines 30-35: the result and the store afterwards. *)
Definition verify_otp (email otp : string) (otp_storage : gmap string string)
  : bool * gmap string string :=
  let stored := otp_storage !! email in
  match stored with
  | Some stored =>
      if negb (String.eqb stored "") && String.eqb stored otp
      then (true, delete email otp_storage)
      else (false, otp_storage)
  | None => (false, otp_storage)
  end.

End EmailService.

(** ** Reference definitions: the closed forms and the specification's wording *)

Definition weight (b : bool) (w : Z) : Z := if b then w else 0.

(** The weight table of the risk scorer over a text already lowercased. *)
Definition signal_weights (age : Z) (sex txt : string) : Z :=
  weight (PyStr.contains "chest pain" txt || PyStr.contains "breath" txt) 4
  + weight (PyStr.contains "bleeding" txt) 4
  + weight (PyStr.contains "fever" txt) 2
  + weight (PyStr.contains "rash" txt) 1
  + weight (60 <? age) 3
  + weight (String.eqb (PyStr.lower sex) "male") 1.

(** The score as the specification words it: the signals are looked up
    in the lowercased concatenation of the two symptom fields. *)
Definition spec_risk_score (age : Z) (sex symptoms additional_symptoms : string) : Z :=
  Z.min 100 (10 * signal_weights age sex (PyStr.lower (symptoms +:+ additional_symptoms))).

(** A vector of floats as a Python list. *)
Definition vec (l : list float) : pyval := PList (map PFloat l).

(** The sum of the products of the paired components, added from the
    left starting at zero; pairing stops at the shorter list. *)
Definition fdot (l1 l2 : list float) : float :=
  fold_left (fun acc p => (acc + fst p * snd p)%float) (zip l1 l2) 0%float.

Definition pair_of_floats (p : float * float) : pyval * pyval :=
  (PFloat (fst p), PFloat (snd p)).

Definition is_number (v : pyval) : bool :=
  match v with PInt _ | PFloat _ => true | _ => false end.

Definition is_vector (v : pyval) : bool :=
  match v with PList l => forallb is_number l | _ => false end.

(** The normalisation of a provider response as the specification words
    it: a named vector field gives that vector, a field holding a list of
    vectors gives the first of them, a bare list of floats gives that
    list, anything else gives null. *)
Definition spec_embedding_of_response (data : pyval) : pyval :=
  match data with
  | PDict d =>
      match dict_lookup "embedding" d, dict_lookup "embeddings" d with
      | Some v, _ => if is_vector v then v else PNone
      | None, Some (PList (v :: _)) => if is_vector v then v else PNone
      | _, _ => PNone
      end
  | PList (x :: l) => if is_vector data then data else PNone
  | _ => PNone
  end.

(** The field a stripped line declares: the text before its first colon
    and the text after it, both stripped. *)
Definition line_field (line : string) : option (string * pyval) :=
  match PyStr.split_once colon line with
  | Some (k, v) => Some (PyStr.strip k, PStr (PyStr.strip v))
  | None => None
  end.

(** ** Worlds and data used by the examples *)

Definition otc_text : string :=
  "Condition: Common Cold" +:+ PyStr.nl +:+ "Dosages: 1 tablet" +:+ PyStr.nl
  +:+ PyStr.nl
  +:+ "Generic Name: Ibuprofen" +:+ PyStr.nl
  +:+ PyStr.nl
  +:+ "Condition: Flu" +:+ PyStr.nl.

(** A world whose only file is the knowledge base [otc_text]. *)
Definition world_with_file : world :=
  {| files := fun path =>
       if String.eqb path OTC_FILE_PATH then Readable otc_text else Missing;
     sleep_limit := fun _ => 9223372036;
     post_embeddings := fun _ _ _ => None;
     get_tags := fun _ => None;
     random_digits := fun _ _ => "000000";
     now_date := fun _ => "2025-01-01";
     generate_pdf := fun _ => "";
     repr := fun _ => "" |}.


(** A provider that answers every request with [reply]. *)
Definition world_with (reply : option pyval) : world :=
  {| files := fun _ => Missing;
     sleep_limit := fun _ => 9223372036;
     post_embeddings := fun _ _ _ => reply;
     get_tags := fun _ => None;
     random_digits := fun _ _ => "000000";
     now_date := fun _ => "2025-01-01";
     generate_pdf := fun _ => "";
     repr := fun _ => "" |}.

Definition record (condition : string) (embedding : pyval) : dict :=
  [("Condition", PStr condition); ("embedding", embedding)].

(** The knowledge base of the end-to-end scenario. *)
Definition two_records : list dict :=
  [record "Common Cold" (vec [1; 0]%float); record "Flu" (vec [0; 1]%float)].

Definition one_record : list dict := [record "Common Cold" (vec [1; 0]%float)].

(** A knowledge base in which the first two records tie. *)
Definition tied_records : list dict :=
  [record "Common Cold" (vec [1; 0]%float); record "Rhinitis" (vec [1; 0]%float);
   record "Flu" (vec [0; 1]%float)].

(** ** Auxiliary definitions for the further properties *)

(** A float that is not below zero: a NaN, or a zero, an infinity or a
    finite number without the sign bit. *)
Definition sf_nonneg (x : spec_float) : bool :=
  match x with
  | S754_nan => true
  | S754_zero _ => true
  | S754_infinity s | S754_finite s _ _ => negb s
  end.

(** A vector whose components are all zero (of either sign). *)
Definition zero_vector (l : list float) : Prop :=
  Forall (fun a => (a =? 0)%float = true) l.

(** The record has an embedding that is not null, empty or zero. *)
Definition embedded (e : dict) : bool := truthy (dict_get e "embedding").

(** The keys of a prescription copied from the matched record. *)
Definition copied_keys : list string :=
  ["Condition"; "Generic Name"; "OTC Brand Names"; "Precaution Measures";
   "Dosages"; "Duration"; "Age Suitability"].

(** The answer to a request with symptoms "cough" whose vector is
    [1, 0], against [two_records] in the world [world_with]. *)
Definition cold_response : dict :=
  [("ok", PBool true); ("risk_score", PInt 10); ("similarity", PFloat 1);
   ("prescription",
    PDict [("Prescription ID", PStr "P000000"); ("Date", PStr "2025-01-01");
           ("Name", PStr "Asha"); ("Age", PInt 30); ("Sex", PStr "male");
           ("Blood Group", PStr "O+"); ("Condition", PStr "Common Cold");
           ("Generic Name", PNone); ("OTC Brand Names", PNone);
           ("Precaution Measures", PNone); ("Dosages", PNone);
           ("Duration", PNone); ("Age Suitability", PNone)])].

(** [k] failed liveness probes, each followed by its sleep. *)
Definition failed_rounds (delay : Z) (k : nat) : list event :=
  concat (replicate k [EvGetTags; EvSleep delay]).

(** The condition of a record when it is a non-empty string. *)
Definition condition_to_embed (entry : dict) : option string :=
  match dict_lookup "Condition" entry with
  | Some (PStr condition) => if String.eqb condition "" then None else Some condition
  | _ => None
  end.

(** Two records agree on every key but "embedding". *)
Definition same_fields (entry entry' : dict) : Prop :=
  forall k : string, k <> "embedding" -> dict_lookup k entry' = dict_lookup k entry.

(** A world whose liveness probe answers 200 at once. *)
Definition world_ready : world :=
  {| files := fun path =>
       if String.eqb path OTC_FILE_PATH then Readable otc_text else Missing;
     sleep_limit := fun _ => 9223372036;
     post_embeddings := fun _ _ _ => Some (PDict [("embedding", vec [1; 0]%float)]);
     get_tags := fun _ => Some 200;
     random_digits := fun _ _ => "000000";
     now_date := fun _ => "2025-01-01";
     generate_pdf := fun _ => "";
     repr := fun _ => "" |}.

(** [f] occurs in [s]. *)
Definition substring_of (f s : string) : Prop :=
  exists p q : string, s = p +:+ f +:+ q.

(** A field as [read_otc_file] stores it: the key is stripped and holds
    no colon, the value is a stripped string. *)
Definition clean_field (kv : string * pyval) : Prop :=
  PyStr.strip (fst kv) = fst kv
  /\ PyStr.contains ":" (fst kv) = false
  /\ exists s : string, snd kv = PStr s /\ PyStr.strip s = s.


(** ** Decimal text of an integer *)

Definition digit_char (d : Z) : ascii := ascii_of_nat (48 + Z.to_nat d).

(** The decimal digits of [n >= 0] before [acc], most significant
    first; [fuel] bounds the number of digits. *)
Fixpoint int_digits (fuel : nat) (n : Z) (acc : string) : string :=
  match fuel with
  | O => acc
  | S fuel' =>
      let acc' := String (digit_char (n mod 10)) acc in
      if n <? 10 then acc' else int_digits fuel' (n / 10) acc'
  end.

(** [str(n)] for an [int]. *)
Definition str_of_int (n : Z) : string :=
  if n <? 0 then "-" +:+ int_digits (S (Z.to_nat (Z.log2 (- n)))) (- n) ""
  else int_digits (S (Z.to_nat (Z.log2 n))) n "".

Definition is_digit (c : ascii) : bool :=
  let n := nat_of_ascii c in ((48 <=? n) && (n <=? 57))%nat.

(** [EmailService.generate_otp] with the draw of
    [random.randint(100000, 999999)] made explicit. *)
Definition generate_otp_from_draw (draw : Z) (email : string)
    (otp_storage : gmap string string) : string * gmap string string :=
  EmailService.generate_otp (str_of_int draw) email otp_storage.

(** ** The page layout of [generate_pdf] *)

(** The calls [generate_pdf] makes on its canvas. *)
Inductive canvas_op : Type :=
| SetFont (name : string) (size : Z)
| DrawString (x y : Z) (text : string)
| ShowPage
| Save.

(** The loop of main.py lines 114-119, entered with the current [y]. *)
Fixpoint draw_fields (w : world) (items : dict) (y : Z) : list canvas_op :=
  match items with
  | [] => []
  | (key, val) :: rest =>
      DrawString 50 y (key +:+ ": " +:+ py_str w val)
      :: (let y := y - 16 in
          if y <? 100 then ShowPage :: draw_fields w rest 800
          else draw_fields w rest y)
  end.

(** The canvas calls of [generate_pdf], main.py lines 106-123, in order
    (the bytes they produce are the library's). *)
Definition generate_pdf_calls (w : world) (prescription : dict) : list canvas_op :=
  [SetFont "Helvetica-Bold" 16;
   DrawString 50 800 "Vit Healthcare Prescription";
   SetFont "Helvetica" 11]
  ++ draw_fields w prescription (800 - 30)
  ++ [ShowPage; Save].

(** The texts drawn, in order. *)
Definition drawn_texts (ops : list canvas_op) : list string :=
  omap (fun op => match op with DrawString _ _ text => Some text | _ => None end) ops.

(** The number of pages emitted. *)
Definition pages (ops : list canvas_op) : nat :=
  length (List.filter (fun op => match op with ShowPage => true | _ => false end) ops).

(** ** The meeting link of an appointment mail *)

(** [s.replace(old, new)] for a one-character [old]. *)
Fixpoint replace_char (old : ascii) (new s : string) : string :=
  match s with
  | EmptyString => EmptyString
  | String c s' =>
      if Ascii.eqb c old then new +:+ replace_char old new s'
      else String c (replace_char old new s')
  end.

(** [meeting_link] of [send_appointment_confirmation], email_service.py
    lines 102-106. *)
Definition meeting_link (appointment_type doctor appointment_time : string) : string :=
  if String.eqb (PyStr.lower appointment_type) "virtual" then
    "https://webex.example.com/meet/" +:+ replace_char " " "" doctor
    +:+ "-" +:+ replace_char " " "T" appointment_time
  else "".

(** The line [generate_pdf] draws for a field. *)
Definition field_line (w : world) (kv : string * pyval) : string :=
  fst kv +:+ ": " +:+ py_str w (snd kv).

(** The first three canvas calls of [generate_pdf]. *)
Definition pdf_header : list canvas_op :=
  [SetFont "Helvetica-Bold" 16;
   DrawString 50 800 "Vit Healthcare Prescription";
   SetFont "Helvetica" 11].

(** ** The text of a knowledge-base file *)




Definition starts_nonspace (s : string) : bool :=
  match s with
  | EmptyString => false
  | String a _ => negb (PyStr.is_space a)
  end.

Fixpoint ends_nonspace (s : string) : bool :=
  match s with
  | EmptyString => false
  | String a EmptyString => negb (PyStr.is_space a)
  | String _ s' => ends_nonspace s'
  end.

(** [s] is empty, or begins and ends with a character that is not
    whitespace. *)
Definition trimmed (s : string) : bool :=
  match s with
  | EmptyString => true
  | _ => starts_nonspace s && ends_nonspace s
  end.


















(** * Properties *)

Example split_ex :
  PyStr.split (PyStr.nl +:+ PyStr.nl) ("a" +:+ PyStr.nl +:+ PyStr.nl +:+ PyStr.nl +:+ "b")
  = ["a"; PyStr.nl +:+ "b"].
Proof. reflexivity. Qed.

Example risk_ex :
  rule_based_risk_score 70 "male" "chest pain and bleeding and fever and rash" "" = 100.
Proof. reflexivity. Qed.

Example float_of_int_ex :
  float_of_int 3 = Return 3%float /\ float_of_int (2 ^ 1024 - 1) = Raise Fault.
Proof. split; vm_compute; reflexivity. Qed.

Example cos_ex :
  cosine_similarity (vec [1]%float) (vec [1; 0]%float) = Return 1%float.
Proof. vm_compute. reflexivity. Qed.

(** ** Order facts on binary64 floats *)

Section FloatOrder.

Local Ltac cmp_cases :=
  repeat match goal with
  | H : context [Z.compare ?a ?b] |- _ =>
      destruct (Z.compare_spec a b); subst; simpl in H
  | H : context [Pos.compare ?a ?b] |- _ =>
      destruct (Pos.compare_spec a b); subst; simpl in H
  | |- context [Z.compare ?a ?b] => destruct (Z.compare_spec a b); subst; simpl
  | |- context [Pos.compare ?a ?b] => destruct (Pos.compare_spec a b); subst; simpl
  end.

Local Ltac by_cases x y z :=
  unfold SFltb, SFeqb, SFcompare;
  destruct x as [[]|[]| |[] ? ?], y as [[]|[]| |[] ? ?], z as [[]|[]| |[] ? ?];
  simpl; try congruence;
  change (Pos.compare_cont Eq) with Pos.compare;
  intros; cmp_cases; simpl in *; try congruence; try lia.

Lemma SFltb_trans x y z : SFltb x y = true -> SFltb y z = true -> SFltb x z = true.
Proof. by_cases x y z. Qed.

Lemma SFeqb_ltb x y z : SFeqb x y = true -> SFltb z y = true -> SFltb z x = true.
Proof. by_cases x y z. Qed.

Lemma SFltb_irrefl x : SFltb x x = false.
Proof.
  unfold SFltb, SFcompare. destruct x as [[]|[]| |[] m e]; simpl; try reflexivity.
  all: change (Pos.compare_cont Eq) with Pos.compare.
  all: rewrite Z.compare_refl, Pos.compare_refl; reflexivity.
Qed.

Lemma ltb_trans (x y z : float) :
  (x <? y)%float = true -> (y <? z)%float = true -> (x <? z)%float = true.
Proof. rewrite !FloatAxioms.ltb_spec. apply SFltb_trans. Qed.

Lemma ltb_irrefl (x : float) : (x <? x)%float = false.
Proof. rewrite FloatAxioms.ltb_spec. apply SFltb_irrefl. Qed.

Lemma eqb_ltb (x y z : float) :
  (x =? y)%float = true -> (z <? y)%float = true -> (z <? x)%float = true.
Proof. rewrite FloatAxioms.eqb_spec, !FloatAxioms.ltb_spec. apply SFeqb_ltb. Qed.

(** What is not above [z] is not above anything above [z]. *)
Lemma ltb_false_trans (x y z : float) :
  (z <? x)%float = false -> (z <? y)%float = true -> (y <? x)%float = false.
Proof.
  intros Hzx Hzy. destruct (y <? x)%float eqn:Hyx; [|reflexivity].
  rewrite (ltb_trans _ _ _ Hzy Hyx) in Hzx. discriminate.
Qed.

Lemma ltb_false_eqb (x y z : float) :
  (z <? x)%float = false -> (z <? y)%float = true -> (x =? y)%float = false.
Proof.
  intros Hzx Hzy. destruct (x =? y)%float eqn:Hxy; [|reflexivity].
  rewrite (eqb_ltb _ _ _ Hxy Hzy) in Hzx. discriminate.
Qed.

End FloatOrder.

(** ** Risk scorer and escalation *)

(** C1: when the risk score is at least 50 the handler returns at once
    the answer of line 190: the three keys "ok", "risk_score" and
    "message", with the risk score itself under "risk_score".  The trace
    of calls is left as it was, so no request to the embedding provider
    is made; the answer depends neither on the knowledge base nor on the
    world, so no similarity search enters it. *)
Theorem C1_high_risk_short_circuit
    (w : world) (OTC_DATA : list dict)
    (name : string) (age : Z) (sex blood_group symptoms additional_symptoms : string)
    (patient_email : option string) (t : list event) :
  50 <= rule_based_risk_score age sex symptoms additional_symptoms ->
  exists answer : dict,
    generate_prescription w OTC_DATA name age sex blood_group symptoms
      additional_symptoms patient_email t
    = (Return answer, t)
    /\ answer
       = [("ok", PBool true);
          ("risk_score",
           PInt (rule_based_risk_score age sex symptoms additional_symptoms));
          ("message", PStr "High risk detected. Book ambulance.")]
    /\ dict_lookup "risk_score" answer
       = Some (PInt (rule_based_risk_score age sex symptoms additional_symptoms))
    /\ dict_lookup "prescription" answer = None.
Proof.
  intros Hrisk. unfold generate_prescription. cbv zeta.
  apply Z.leb_le in Hrisk. rewrite Hrisk.
  eexists. split; [reflexivity|]. repeat split.
Qed.

Lemma C1_high_risk_short_circuit_witness :
  exists answer : dict,
    generate_prescription (world_with None) two_records "Asha" 70 "male" "O+"
      "chest pain" "" None []
    = (Return answer, [])
    /\ answer
       = [("ok", PBool true); ("risk_score", PInt 80);
          ("message", PStr "High risk detected. Book ambulance.")]
    /\ dict_lookup "risk_score" answer = Some (PInt 80)
    /\ dict_lookup "prescription" answer = None.
Proof.
  refine (C1_high_risk_short_circuit (world_with None) two_records "Asha" 70
            "male" "O+" "chest pain" "" None [] _).
  vm_compute. discriminate.
Defined.

(** C2 (as the specification words it) fails: the code joins the two
    symptom fields with a space, so a signal may straddle them. *)
Lemma C2_counterexample :
  rule_based_risk_score 30 "female" "chest" "pain" = 40
  /\ spec_risk_score 30 "female" "chest" "pain" = 0.
Proof. split; reflexivity. Qed.

(** C2, amended: the score is min(100, 10 * w), with w the sum of the
    weights of the signals found in the lowercased text made of the
    symptoms, one space, and the additional symptoms; it lies between 0
    and 100. *)
Theorem C2_risk_score_formula
    (age : Z) (sex symptoms additional_symptoms : string) :
  rule_based_risk_score age sex symptoms additional_symptoms
  = Z.min 100
      (10 * signal_weights age sex
              (PyStr.lower (symptoms +:+ " " +:+ additional_symptoms)))
  /\ 0 <= rule_based_risk_score age sex symptoms additional_symptoms <= 100.
Proof.
  unfold rule_based_risk_score, signal_weights, weight. cbv zeta.
  destruct (PyStr.contains "chest pain" _ || PyStr.contains "breath" _),
    (PyStr.contains "bleeding" _), (PyStr.contains "fever" _),
    (PyStr.contains "rash" _), (60 <? age), (String.eqb (PyStr.lower sex) "male");
    simpl; lia.
Qed.

(** ** OTP bookkeeping *)

(** C10: [verify_otp] answers True exactly when a non-empty OTP is stored
    for the address and equals the one supplied; a success deletes the
    stored OTP, so the same pair is refused right after; a failure leaves
    the store as it was. *)
Theorem C10_verify_otp_one_time
    (email otp : string) (otp_storage : gmap string string) :
  (fst (EmailService.verify_otp email otp otp_storage) = true
   <-> otp_storage !! email = Some otp /\ otp <> "")
  /\ (fst (EmailService.verify_otp email otp otp_storage) = true ->
      snd (EmailService.verify_otp email otp otp_storage) = delete email otp_storage
      /\ fst (EmailService.verify_otp email otp
                (snd (EmailService.verify_otp email otp otp_storage))) = false)
  /\ (fst (EmailService.verify_otp email otp otp_storage) = false ->
      snd (EmailService.verify_otp email otp otp_storage) = otp_storage).
Proof.
  unfold EmailService.verify_otp.
  destruct (otp_storage !! email) as [stored|] eqn:Hget; simpl.
  - destruct (String.eqb_spec stored ""), (String.eqb_spec stored otp);
      simpl; subst.
    all: repeat split; try congruence; try (intros [? ?]; congruence).
    + now rewrite lookup_delete_eq.
  - repeat split; try congruence. intros [? ?]; congruence.
Qed.

Lemma C10_verify_otp_one_time_witness :
  snd (EmailService.verify_otp "a@b.c" "123456" {[ "a@b.c" := "123456" ]})
  = delete "a@b.c" {[ "a@b.c" := "123456" ]}
  /\ fst (EmailService.verify_otp "a@b.c" "123456"
            (snd (EmailService.verify_otp "a@b.c" "123456" {[ "a@b.c" := "123456" ]})))
     = false.
Proof.
  apply (C10_verify_otp_one_time "a@b.c" "123456" {[ "a@b.c" := "123456" ]}).
  vm_compute. reflexivity.
Defined.

(** ** Embedding provider *)

Lemma ollama_embeddings_run (w : world) (text : string) (t : list event) :
  ollama_embeddings w text t
  = (Return
       match post_embeddings w (t ++ [EvPostEmbeddings E5_MODEL text]) E5_MODEL text with
       | Some data => embedding_of_response data
       | None => PNone
       end,
     t ++ [EvPostEmbeddings E5_MODEL text]).
Proof.
  unfold ollama_embeddings, emit, observe, mbind, io_bind. simpl.
  destruct (post_embeddings w _ E5_MODEL text); reflexivity.
Qed.

(** C5 (as the specification words it) fails: under the key
    "embeddings" the code hands back the whole list of vectors, not its
    first vector, and of a bare list of floats it hands back the first
    float, not the list. *)
Lemma C5_counterexample :
  embedding_of_response (PDict [("embeddings", PList [vec [1; 2]%float])])
    = PList [vec [1; 2]%float]
  /\ spec_embedding_of_response (PDict [("embeddings", PList [vec [1; 2]%float])])
    = vec [1; 2]%float
  /\ embedding_of_response (vec [1; 2]%float) = PFloat 1
  /\ spec_embedding_of_response (vec [1; 2]%float) = vec [1; 2]%float.
Proof. repeat split; reflexivity. Qed.

(** C5, amended: a dict with the key "embedding" yields the value under
    that key; a dict without it but with the key "embeddings" yields the
    value under that key as it is; a non-empty list yields its first
    element; every other response, and every failed request, yields null.
    The value handed back is not checked to be a vector. *)
Theorem C5_response_shapes :
  (forall (d : dict) (v : pyval),
      dict_lookup "embedding" d = Some v -> embedding_of_response (PDict d) = v)
  /\ (forall (d : dict) (v : pyval),
      dict_lookup "embedding" d = None -> dict_lookup "embeddings" d = Some v ->
      embedding_of_response (PDict d) = v)
  /\ (forall (x : pyval) (l : list pyval), embedding_of_response (PList (x :: l)) = x)
  /\ (forall data : pyval,
      (forall d, data = PDict d ->
                 dict_lookup "embedding" d = None /\ dict_lookup "embeddings" d = None) ->
      (forall x l, data <> PList (x :: l)) ->
      embedding_of_response data = PNone)
  /\ (forall (w : world) (text : string) (t : list event),
      ollama_embeddings w text t
      = (Return
           match post_embeddings w (t ++ [EvPostEmbeddings E5_MODEL text]) E5_MODEL text with
           | Some data => embedding_of_response data
           | None => PNone
           end,
         t ++ [EvPostEmbeddings E5_MODEL text])).
Proof.
  repeat split.
  - intros d v Hv. unfold embedding_of_response, dict_mem, dict_get. now rewrite Hv.
  - intros d v Hn Hv. unfold embedding_of_response, dict_mem, dict_get.
    now rewrite Hn, Hv.
  - intros data Hdict Hlist. destruct data as [| | | | |l|d]; try reflexivity.
    + destruct l as [|x l]; [reflexivity|]. now destruct (Hlist x l).
    + destruct (Hdict d eq_refl) as [Hn Hn'].
      unfold embedding_of_response, dict_mem. now rewrite Hn, Hn'.
  - apply ollama_embeddings_run.
Qed.

Lemma C5_response_shapes_witness :
  embedding_of_response
    (PDict [("model", PStr "nomic-embed-text"); ("embedding", vec [1; 2]%float)])
  = vec [1; 2]%float.
Proof.
  apply (proj1 C5_response_shapes
           [("model", PStr "nomic-embed-text"); ("embedding", vec [1; 2]%float)]).
  reflexivity.
Defined.

(** ** Cosine similarity *)

Lemma float_of_int_0 : float_of_int 0 = Return 0%float.
Proof. vm_compute. reflexivity. Qed.

Lemma sum_products_from_float (ps : list (float * float)) (acc : float) :
  sum_products (NFloat acc) (map pair_of_floats ps)
  = Return (NFloat (fold_left (fun acc p => (acc + fst p * snd p)%float) ps acc)).
Proof.
  revert acc. induction ps as [|[a b] ps IH]; intros acc; [reflexivity|].
  simpl. apply IH.
Qed.

Lemma sum_products_floats (ps : list (float * float)) :
  ps <> [] ->
  sum_products (NInt 0) (map pair_of_floats ps)
  = Return (NFloat (fold_left (fun acc p => (acc + fst p * snd p)%float) ps 0%float)).
Proof.
  destruct ps as [|[a b] ps]; [congruence|]. intros _.
  cbn [map pair_of_floats fst snd sum_products py_mul num_of num_mul to_float
       mbind outcome_bind num_add].
  rewrite float_of_int_0. cbn [mbind outcome_bind].
  now rewrite sum_products_from_float.
Qed.

Lemma zip_vec (l1 l2 : list float) :
  zip (map PFloat l1) (map PFloat l2) = map pair_of_floats (zip l1 l2).
Proof.
  revert l2. induction l1 as [|a l1 IH]; intros [|b l2]; simpl; try reflexivity.
  now rewrite IH.
Qed.

Lemma dup_vec (l : list float) :
  map (fun a => (a, a)) (map PFloat l) = map pair_of_floats (zip l l).
Proof. induction l as [|a l IH]; simpl; [reflexivity|]. now rewrite IH. Qed.

Lemma zip_common_prefix {A B : Type} (l1 : list A) (l2 : list B) :
  zip l1 l2 = zip (take (length l2) l1) (take (length l1) l2).
Proof.
  revert l2. induction l1 as [|a l1 IH]; intros [|b l2]; simpl; try reflexivity.
  now rewrite <- IH.
Qed.

Lemma zip_nonempty {A B : Type} (l1 : list A) (l2 : list B) :
  l1 <> [] -> l2 <> [] -> zip l1 l2 <> [].
Proof. destruct l1, l2; simpl; congruence. Qed.

Lemma cosine_similarity_falsy_l (v1 v2 : pyval) :
  truthy v1 = false -> cosine_similarity v1 v2 = Return 0%float.
Proof. intros H. unfold cosine_similarity. now rewrite H. Qed.

Lemma cosine_similarity_falsy_r (v1 v2 : pyval) :
  truthy v2 = false -> cosine_similarity v1 v2 = Return 0%float.
Proof. intros H. unfold cosine_similarity. rewrite H. now rewrite orb_true_r. Qed.

(** C4 (as the specification words it) fails: a vector of one component
    against a vector of two has similarity 1, not 0. *)
Lemma C4_counterexample :
  cosine_similarity (vec [1]%float) (vec [1; 0]%float) = Return 1%float
  /\ (1 =? 0)%float = false
  /\ length [1%float] <> length [1%float; 0%float].
Proof. repeat split; vm_compute; congruence. Qed.

(** C4, amended: for non-empty vectors of floats, of equal or different
    lengths, the similarity is the dot product of the common prefix (each
    vector cut to the length of the other) divided by the product of the
    norms of the two full vectors; it is 0.0 when one of the norms is
    zero.  A length mismatch is neither detected nor mapped to zero. *)
Theorem C4_mismatch_uses_common_prefix (l1 l2 : list float) :
  l1 <> [] -> l2 <> [] ->
  cosine_similarity (vec l1) (vec l2)
  = (norm1 ← math_sqrt (NFloat (fdot l1 l1));
     norm2 ← math_sqrt (NFloat (fdot l2 l2));
     if (norm1 =? 0)%float || (norm2 =? 0)%float then Return 0%float
     else true_div (NFloat (fdot (take (length l2) l1) (take (length l1) l2)))
                   (norm1 * norm2)%float).
Proof.
  intros H1 H2. unfold cosine_similarity, vec.
  replace (truthy (PList (map PFloat l1))) with true by now destruct l1.
  replace (truthy (PList (map PFloat l2))) with true by now destruct l2.
  cbn [negb orb py_iter mbind outcome_bind].
  rewrite zip_vec, !dup_vec.
  rewrite !sum_products_floats by now apply zip_nonempty.
  cbn [mbind outcome_bind]. unfold fdot.
  now rewrite <- (zip_common_prefix l1 l2).
Qed.

Lemma C4_mismatch_uses_common_prefix_witness :
  cosine_similarity (vec [1]%float) (vec [1; 0]%float)
  = (norm1 ← math_sqrt (NFloat (fdot [1]%float [1]%float));
     norm2 ← math_sqrt (NFloat (fdot [1; 0]%float [1; 0]%float));
     if (norm1 =? 0)%float || (norm2 =? 0)%float then Return 0%float
     else true_div (NFloat (fdot (take 2 [1]%float) (take 1 [1; 0]%float)))
                   (norm1 * norm2)%float).
Proof.
  apply (C4_mismatch_uses_common_prefix [1]%float [1; 0]%float); congruence.
Defined.

(** ** The scan for the best match *)

Lemma dict_get_set (k : string) (v : pyval) (d : dict) :
  dict_get (dict_set k v d) k = v.
Proof.
  unfold dict_get. induction d as [|[k' v'] d IH]; simpl.
  - now rewrite String.eqb_refl.
  - destruct (String.eqb k k') eqn:Hk; simpl; rewrite Hk; [reflexivity|exact IH].
Qed.

(** A scan that never meets a similarity above the running score keeps
    what it started with. *)
Lemma best_match_loop_unchanged (user_vec : pyval) (data : list dict)
    (best_match : option dict) (best_score : float) :
  (forall e, e ∈ data ->
     exists sim, cosine_similarity user_vec (dict_get e "embedding") = Return sim
                 /\ (best_score <? sim)%float = false) ->
  best_match_loop user_vec data best_match best_score = Return (best_match, best_score).
Proof.
  induction data as [|e data IH]; intros Hall; [reflexivity|].
  destruct (Hall e) as (sim & Hsim & Hle); [left|].
  simpl. rewrite Hsim. cbn [mbind outcome_bind]. rewrite Hle.
  apply IH. intros e' He'. apply Hall. now right.
Qed.

(** The winner of a scan is the record it started with or a record of the
    knowledge base whose embedding, like the query, is not falsy. *)
Lemma best_match_loop_winner (user_vec : pyval) (data : list dict) :
  forall (best_match : option dict) (best_score : float) (e : dict) (score : float),
    (best_score <? 0)%float = false ->
    best_match_loop user_vec data best_match best_score = Return (Some e, score) ->
    (score <? 0)%float = false
    /\ ((best_match = Some e /\ score = best_score)
        \/ (e ∈ data /\ truthy user_vec = true
            /\ truthy (dict_get e "embedding") = true
            /\ (best_score <? score)%float = true)).
Proof.
  induction data as [|e0 data IH]; intros best_match best_score e score Hpos Hrun.
  - simpl in Hrun. injection Hrun as -> ->. split; [exact Hpos|]. now left.
  - simpl in Hrun.
    destruct (cosine_similarity user_vec (dict_get e0 "embedding")) as [sim|]
      eqn:Hsim; [|discriminate].
    cbn [mbind outcome_bind] in Hrun.
    destruct (best_score <? sim)%float eqn:Hlt.
    + assert (Hsim0 : (sim <? 0)%float = false)
        by exact (ltb_false_trans _ _ _ Hpos Hlt).
      destruct (IH _ _ _ _ Hsim0 Hrun) as [Hs [[Heq ->]|(Hin & Hq & He & Hgt)]].
      * split; [exact Hs|]. right. injection Heq as <-.
        split; [left|].
        destruct (truthy user_vec) eqn:Hq.
        2:{ rewrite cosine_similarity_falsy_l in Hsim by exact Hq.
            injection Hsim as <-. congruence. }
        destruct (truthy (dict_get e0 "embedding")) eqn:He.
        2:{ rewrite cosine_similarity_falsy_r in Hsim by exact He.
            injection Hsim as <-. congruence. }
        auto.
      * split; [exact Hs|]. right. repeat split; auto.
        -- now right.
        -- exact (ltb_trans _ _ _ Hlt Hgt).
    + destruct (IH _ _ _ _ Hpos Hrun) as [Hs [Hsame|(Hin & Hq & He & Hgt)]].
      * split; [exact Hs|]. now left.
      * split; [exact Hs|]. right. repeat split; auto. now right.
Qed.

(** C8: a record whose embedding is null has similarity 0.0 with every
    query, and the record the scan selects is a record of the knowledge
    base whose embedding is not null (and whose similarity is above 0). *)
Theorem C8_null_embedding_never_wins (user_vec : pyval) (OTC_DATA : list dict) :
  (forall e : dict,
      dict_get e "embedding" = PNone ->
      cosine_similarity user_vec (dict_get e "embedding") = Return 0%float)
  /\ (forall (e : dict) (score : float),
      best_match_loop user_vec OTC_DATA None 0%float = Return (Some e, score) ->
      e ∈ OTC_DATA /\ dict_get e "embedding" <> PNone /\ (0 <? score)%float = true).
Proof.
  split.
  - intros e He. apply cosine_similarity_falsy_r. now rewrite He.
  - intros e score Hrun.
    destruct (best_match_loop_winner user_vec OTC_DATA None 0%float e score
                (ltb_irrefl 0%float) Hrun) as [_ [[Hnone _]|(Hin & _ & He & Hgt)]];
      [discriminate|].
    repeat split; auto. intros Hnull. rewrite Hnull in He. discriminate.
Qed.

Lemma C8_null_embedding_never_wins_witness :
  record "Flu" (vec [0; 1]%float)
    ∈ [record "Common Cold" PNone; record "Flu" (vec [0; 1]%float)]
  /\ dict_get (record "Flu" (vec [0; 1]%float)) "embedding" <> PNone
  /\ (0 <? 1)%float = true.
Proof.
  apply (proj2 (C8_null_embedding_never_wins (vec [0; 1]%float)
                  [record "Common Cold" PNone; record "Flu" (vec [0; 1]%float)])).
  vm_compute. reflexivity.
Defined.

(** The scan over records whose similarities are [sims], entered with
    [best_score]: either no similarity is above [best_score] and the
    scan keeps what it had, or it ends on the first record whose
    similarity no other one exceeds. *)
Lemma best_match_loop_first_max (user_vec : pyval) (data : list dict)
    (sims : list float) :
  Forall2 (fun e sim => cosine_similarity user_vec (dict_get e "embedding") = Return sim)
          data sims ->
  forall (best_match : option dict) (best_score : float),
  exists (best : option dict) (score : float),
    best_match_loop user_vec data best_match best_score = Return (best, score)
    /\ ((best = best_match /\ score = best_score
         /\ forall j sim, sims !! j = Some sim -> (best_score <? sim)%float = false)
        \/ exists (i : nat) (e : dict),
             best = Some e /\ data !! i = Some e /\ sims !! i = Some score
             /\ (best_score <? score)%float = true
             /\ forall j sim, sims !! j = Some sim ->
                  (score <? sim)%float = false
                  /\ ((j < i)%nat -> (sim =? score)%float = false)).
Proof.
  induction 1 as [|e sim data sims Hsim _ IH]; intros best_match best_score.
  - exists best_match, best_score. split; [reflexivity|]. left.
    repeat split. intros j s Hj. now rewrite lookup_nil in Hj.
  - simpl. rewrite Hsim. cbn [mbind outcome_bind].
    destruct (best_score <? sim)%float eqn:Hlt.
    + destruct (IH (Some e) sim)
        as (best & score & Hrun & [(-> & -> & Hrest)|(i & e' & -> & Hd & Hs & Hgt & Hmax)]).
      * exists (Some e), sim. split; [exact Hrun|]. right. exists 0%nat, e.
        do 4 (split; [reflexivity || exact Hlt|]).
        intros [|j] s Hj; simpl in Hj.
        -- injection Hj as <-. split; [apply ltb_irrefl|lia].
        -- split; [exact (Hrest j s Hj)|lia].
      * exists (Some e'), score. split; [exact Hrun|]. right. exists (S i), e'.
        do 3 (split; [reflexivity || assumption|]).
        split; [exact (ltb_trans _ _ _ Hlt Hgt)|].
        intros [|j] s Hj; simpl in Hj.
        -- injection Hj as <-. split.
           ++ destruct (score <? sim)%float eqn:Hback; [|reflexivity].
              rewrite <- (ltb_irrefl sim). symmetry.
              exact (ltb_trans _ _ _ Hgt Hback).
           ++ intros _. destruct (sim =? score)%float eqn:Heq; [|reflexivity].
              rewrite <- (ltb_irrefl sim). symmetry.
              exact (eqb_ltb _ _ _ Heq Hgt).
        -- destruct (Hmax j s Hj) as [Hle Hne]. split; [exact Hle|].
           intros Hji. apply Hne. lia.
    + destruct (IH best_match best_score)
        as (best & score & Hrun & [(-> & -> & Hrest)|(i & e' & -> & Hd & Hs & Hgt & Hmax)]).
      * exists best_match, best_score. split; [exact Hrun|]. left.
        repeat split. intros [|j] s Hj; simpl in Hj.
        -- now injection Hj as <-.
        -- exact (Hrest j s Hj).
      * exists (Some e'), score. split; [exact Hrun|]. right. exists (S i), e'.
        do 4 (split; [reflexivity || assumption|]).
        intros [|j] s Hj; simpl in Hj.
        -- injection Hj as <-. split.
           ++ exact (ltb_false_trans _ _ _ Hlt Hgt).
           ++ intros _. exact (ltb_false_eqb _ _ _ Hlt Hgt).
        -- destruct (Hmax j s Hj) as [Hle Hne]. split; [exact Hle|].
           intros Hji. apply Hne. lia.
Qed.

(** A scan that meets a similarity it cannot compute fails with it,
    whatever it had found before. *)
Lemma best_match_loop_raises (user_vec : pyval) (seen rest : list dict)
    (e : dict) (err : exn) :
  Forall (fun e' => exists sim,
            cosine_similarity user_vec (dict_get e' "embedding") = Return sim) seen ->
  cosine_similarity user_vec (dict_get e "embedding") = Raise err ->
  forall (best_match : option dict) (best_score : float),
    best_match_loop user_vec (seen ++ e :: rest) best_match best_score = Raise err.
Proof.
  intros Hseen Herr. induction Hseen as [|e' seen [sim Hsim] _ IH];
    intros best_match best_score; simpl.
  - now rewrite Herr.
  - rewrite Hsim. cbn [mbind outcome_bind].
    destruct (best_score <? sim)%float; apply IH.
Qed.

(** Either every similarity is computed, or there is a first record
    whose similarity is not. *)
Lemma similarities_or_failure (user_vec : pyval) (data : list dict) :
  (exists sims : list float,
      Forall2 (fun e sim =>
                 cosine_similarity user_vec (dict_get e "embedding") = Return sim)
              data sims)
  \/ (exists (seen rest : list dict) (e : dict) (err : exn),
        data = seen ++ e :: rest
        /\ Forall (fun e' => exists sim,
                     cosine_similarity user_vec (dict_get e' "embedding") = Return sim)
                  seen
        /\ cosine_similarity user_vec (dict_get e "embedding") = Raise err).
Proof.
  induction data as [|e data IH].
  - left. exists []. constructor.
  - destruct (cosine_similarity user_vec (dict_get e "embedding")) as [sim|err] eqn:Hsim.
    + destruct IH as [[sims Hsims]|(seen & rest & e' & err & -> & Hseen & Herr)].
      * left. exists (sim :: sims). now constructor.
      * right. exists (e :: seen), rest, e', err. split; [reflexivity|].
        split; [|exact Herr]. constructor; [now exists sim|exact Hseen].
    + right. exists [], data, e, err. split; [reflexivity|]. split; [constructor|exact Hsim].
Qed.

(** C6 (as the specification words it) fails: two records whose
    embeddings are null both have similarity 0.0 with the query, the
    maximum over the knowledge base, and the scan returns neither of
    them. *)
Lemma C6_counterexample :
  cosine_similarity (vec [1; 0]%float) (dict_get (record "Common Cold" PNone) "embedding")
    = Return 0%float
  /\ cosine_similarity (vec [1; 0]%float) (dict_get (record "Flu" PNone) "embedding")
    = Return 0%float
  /\ best_match_loop (vec [1; 0]%float)
       [record "Common Cold" PNone; record "Flu" PNone] None 0%float
    = Return (None, 0%float).
Proof. repeat split; vm_compute; reflexivity. Qed.

(** C6, amended: for every query vector and every knowledge base the
    scan goes through the records in order, from no record and the score
    0, and takes a record only when its similarity is strictly above the
    best so far.  When every similarity is computed it returns: no record
    and the score 0 when no similarity is above 0; otherwise the record
    at the first position whose similarity is maximal (no similarity
    exceeds it, no earlier record has a similarity equal to it), with
    that similarity, which is above 0.  So among records that tie at a
    maximum above 0 the earliest in knowledge-base order wins, and
    records that tie at 0 are not returned.  When a similarity cannot be
    computed the scan fails with the error of the first such record. *)
Theorem C6_first_maximal_record_wins (user_vec : pyval) (OTC_DATA : list dict) :
  (exists (sims : list float) (best : option dict) (score : float),
      Forall2 (fun e sim =>
                 cosine_similarity user_vec (dict_get e "embedding") = Return sim)
              OTC_DATA sims
      /\ best_match_loop user_vec OTC_DATA None 0%float = Return (best, score)
      /\ match best with
         | None =>
             score = 0%float
             /\ forall j sim, sims !! j = Some sim -> (0 <? sim)%float = false
         | Some e =>
             exists i : nat,
               OTC_DATA !! i = Some e /\ sims !! i = Some score
               /\ (0 <? score)%float = true
               /\ forall j sim, sims !! j = Some sim ->
                    (score <? sim)%float = false
                    /\ ((j < i)%nat -> (sim =? score)%float = false)
         end)
  \/ (exists (seen rest : list dict) (e : dict) (err : exn),
        OTC_DATA = seen ++ e :: rest
        /\ Forall (fun e' => exists sim,
                     cosine_similarity user_vec (dict_get e' "embedding") = Return sim)
                  seen
        /\ cosine_similarity user_vec (dict_get e "embedding") = Raise err
        /\ best_match_loop user_vec OTC_DATA None 0%float = Raise err).
Proof.
  destruct (similarities_or_failure user_vec OTC_DATA)
    as [[sims Hsims]|(seen & rest & e & err & -> & Hseen & Herr)].
  - left.
    destruct (best_match_loop_first_max user_vec OTC_DATA sims Hsims None 0%float)
      as (best & score & Hrun & [(-> & -> & Hrest)|(i & e & -> & Hd & Hs & Hgt & Hmax)]).
    + exists sims, None, 0%float. auto.
    + exists sims, (Some e), score. split; [exact Hsims|]. split; [exact Hrun|].
      exists i. auto.
  - right. exists seen, rest, e, err. split; [reflexivity|].
    split; [exact Hseen|]. split; [exact Herr|].
    now apply best_match_loop_raises.
Qed.

Example tie_break_ex :
  best_match_loop (vec [1; 0]%float) tied_records None 0%float
  = Return (Some (record "Common Cold" (vec [1; 0]%float)), 1%float).
Proof. vm_compute. reflexivity. Qed.

(** ** The handler on a low-risk request *)

Lemma generate_prescription_no_match
    (w : world) (OTC_DATA : list dict)
    (name : string) (age : Z) (sex blood_group symptoms additional_symptoms : string)
    (patient_email : option string) (t t' : list event)
    (user_vec : pyval) (score : float) :
  rule_based_risk_score age sex symptoms additional_symptoms < 50 ->
  ollama_embeddings w (symptoms +:+ " " +:+ additional_symptoms) t
    = (Return user_vec, t') ->
  best_match_loop user_vec OTC_DATA None 0%float = Return (None, score) ->
  generate_prescription w OTC_DATA name age sex blood_group symptoms
    additional_symptoms patient_email t
  = (Raise no_match, t').
Proof.
  intros Hrisk Hembed Hscan. unfold generate_prescription. cbv zeta.
  apply Z.leb_gt in Hrisk. rewrite Hrisk.
  unfold mbind at 1. unfold io_bind. rewrite Hembed.
  unfold lift. now rewrite Hscan.
Qed.

(** When the scan selects a record the handler answers with a
    prescription that carries the score and the similarity. *)
Lemma generate_prescription_match
    (w : world) (OTC_DATA : list dict)
    (name : string) (age : Z) (sex blood_group symptoms additional_symptoms : string)
    (patient_email : option string) (t t' : list event)
    (user_vec : pyval) (best_match : dict) (best_score : float) :
  rule_based_risk_score age sex symptoms additional_symptoms < 50 ->
  ollama_embeddings w (symptoms +:+ " " +:+ additional_symptoms) t
    = (Return user_vec, t') ->
  best_match_loop user_vec OTC_DATA None 0%float = Return (Some best_match, best_score) ->
  exists (prescription : dict) (t'' : list event),
    generate_prescription w OTC_DATA name age sex blood_group symptoms
      additional_symptoms patient_email t
    = (Return [("ok", PBool true);
               ("risk_score",
                PInt (rule_based_risk_score age sex symptoms additional_symptoms));
               ("similarity", PFloat best_score);
               ("prescription", PDict prescription)], t'')
    /\ dict_get prescription "Condition" = dict_get best_match "Condition".
Proof.
  intros Hrisk Hembed Hscan.
  destruct (best_match_loop_winner user_vec OTC_DATA None 0%float best_match
              best_score (ltb_irrefl 0%float) Hscan)
    as [_ [[Hnone _]|(_ & _ & Hemb & _)]]; [discriminate|].
  assert (Hne : best_match <> []) by (intros ->; discriminate).
  unfold generate_prescription. cbv zeta.
  apply Z.leb_gt in Hrisk. rewrite Hrisk.
  unfold mbind at 1. unfold io_bind at 1. rewrite Hembed.
  unfold mbind at 1. unfold io_bind at 1. unfold lift at 1. rewrite Hscan.
  destruct best_match as [|field fields]; [congruence|].
  unfold generate_id, observe, send_email_with_attachment, emit, mbind, io_bind, mret,
    io_ret.
  destruct patient_email as [to_email|].
  - destruct (negb (String.eqb to_email "")); eexists _, _; split; reflexivity.
  - eexists _, _; split; reflexivity.
Qed.

Lemma no_positive_similarity_cases (user_vec : pyval) (OTC_DATA : list dict) :
  user_vec = PNone
  \/ Forall (fun e => dict_get e "embedding" = PNone) OTC_DATA
  \/ OTC_DATA = [] ->
  forall e, e ∈ OTC_DATA ->
    exists sim, cosine_similarity user_vec (dict_get e "embedding") = Return sim
                /\ (0 <? sim)%float = false.
Proof.
  intros Hcase e He. exists 0%float. split; [|apply ltb_irrefl].
  destruct Hcase as [->|[Hall| ->]].
  - now apply cosine_similarity_falsy_l.
  - rewrite Forall_forall in Hall. apply cosine_similarity_falsy_r.
    now rewrite (Hall e He).
  - now apply elem_of_nil in He.
Qed.



(** C3 (as the specification words it) fails: with the provider down
    the handler answers a low-risk request with the very HTTP 404
    "No match found" it gives when a query scores zero against a populated
    knowledge base; there is no Unavailable outcome and no reason
    "embedding unavailable". *)
Lemma C3_counterexample :
  fst (generate_prescription (world_with None) one_record
         "Asha" 30 "female" "O+" "cough" "" None [])
    = Raise (HTTPException 404 "No match found")
  /\ fst (generate_prescription
            (world_with (Some (PDict [("embedding", vec [0; 1]%float)]))) one_record
            "Asha" 30 "female" "O+" "cough" "" None [])
    = Raise (HTTPException 404 "No match found").
Proof. split; vm_compute; reflexivity. Qed.

(** C3, amended: on a low-risk request, when the embed call returns
    null, or when start-up found the provider unreachable and gave every
    record a null embedding, the handler still makes the embed call and
    then raises HTTP 404 "No match found", the outcome of a query that
    matches nothing. *)
Theorem C3_embedding_failure_is_no_match
    (w : world) (kb OTC_DATA : list dict)
    (name : string) (age : Z) (sex blood_group symptoms additional_symptoms : string)
    (patient_email : option string) (t : list event) :
  rule_based_risk_score age sex symptoms additional_symptoms < 50 ->
  fst (ollama_embeddings w (symptoms +:+ " " +:+ additional_symptoms) t) = Return PNone
  \/ OTC_DATA = map (dict_set "embedding" PNone) kb ->
  generate_prescription w OTC_DATA name age sex blood_group symptoms
    additional_symptoms patient_email t
  = (Raise (HTTPException 404 "No match found"),
     t ++ [EvPostEmbeddings E5_MODEL (symptoms +:+ " " +:+ additional_symptoms)]).
Proof.
  intros Hrisk Hcase.
  pose proof (ollama_embeddings_run w (symptoms +:+ " " +:+ additional_symptoms) t)
    as Hrun.
  eapply generate_prescription_no_match; [exact Hrisk|exact Hrun|].
  apply best_match_loop_unchanged. apply no_positive_similarity_cases.
  destruct Hcase as [Hnull| ->].
  - left. rewrite Hrun in Hnull. simpl in Hnull. now injection Hnull.
  - right. left. apply Forall_forall. intros e He.
    apply list_elem_of_fmap in He as (e0 & -> & _). apply dict_get_set.
Qed.

Lemma C3_embedding_failure_is_no_match_witness :
  generate_prescription (world_with None) two_records
    "Asha" 30 "female" "O+" "cough" "" None []
  = (Raise (HTTPException 404 "No match found"), [EvPostEmbeddings E5_MODEL "cough "]).
Proof.
  apply (C3_embedding_failure_is_no_match (world_with None) [] two_records
           "Asha" 30 "female" "O+" "cough" "" None []).
  - vm_compute. reflexivity.
  - left. vm_compute. reflexivity.
Defined.

(** ** Knowledge-base loader *)

(** The statement on the loader comes with the facts on [strip] and
    [split] it rests on, in the section on the text of the file below. *)

Example read_otc_file_ex :
  read_otc_file world_with_file OTC_FILE_PATH
  = Return [[("Condition", PStr "Common Cold"); ("Dosages", PStr "1 tablet")];
            [("Condition", PStr "Flu")]].
Proof. vm_compute. reflexivity. Qed.

Lemma fold_left_append_filter {A B : Type} (f : A -> B) (keep : B -> bool)
    (l : list A) (acc : list B) :
  fold_left (fun acc a => if keep (f a) then acc ++ [f a] else acc) l acc
  = acc ++ List.filter keep (map f l).
Proof.
  revert acc. induction l as [|a l IH]; intros acc; simpl.
  - now rewrite app_nil_r.
  - rewrite IH. destruct (keep (f a)); [|reflexivity].
    now rewrite <- app_assoc.
Qed.

Lemma dict_lookup_set (k k' : string) (v : pyval) (d : dict) :
  dict_lookup k (dict_set k' v d)
  = if String.eqb k k' then Some v else dict_lookup k d.
Proof.
  induction d as [|[k0 v0] d IH]; simpl; [reflexivity|].
  destruct (String.eqb_spec k' k0) as [->|Hne]; simpl.
  - now destruct (String.eqb k k0).
  - rewrite IH. destruct (String.eqb_spec k k0) as [->|Hne']; [|reflexivity].
    destruct (String.eqb_spec k0 k'); congruence.
Qed.

Lemma contains_colon_cons (c : ascii) (s : string) :
  PyStr.contains ":" (String c s) = Ascii.eqb c colon || PyStr.contains ":" s.
Proof.
  cbn [PyStr.contains String.prefix]. unfold colon.
  destruct (ascii_dec ":" c) as [<-|Hne]; [now destruct s|].
  destruct (Ascii.eqb_spec c ":"); [congruence|reflexivity].
Qed.



(** * Further properties of the code *)

(** ** Strings *)

Lemma append_cons (c : ascii) (s t : string) : String c s +:+ t = String c (s +:+ t).
Proof. reflexivity. Qed.

Lemma append_nil_l (t : string) : "" +:+ t = t.
Proof. reflexivity. Qed.

Lemma append_assoc (s t u : string) : (s +:+ t) +:+ u = s +:+ (t +:+ u).
Proof.
  induction s as [|c s IH]; [reflexivity|]. now rewrite !append_cons, IH.
Qed.

Lemma lower_append (s t : string) :
  PyStr.lower (s +:+ t) = PyStr.lower s +:+ PyStr.lower t.
Proof.
  induction s as [|c s IH]; [reflexivity|].
  rewrite append_cons. cbn [PyStr.lower]. now rewrite IH, append_cons.
Qed.

Lemma prefix_append (sub s q : string) :
  String.prefix sub s = true -> String.prefix sub (s +:+ q) = true.
Proof.
  revert s. induction sub as [|a sub IH]; intros s; [now destruct (s +:+ q)|].
  destruct s as [|b s]; [discriminate|]. rewrite append_cons. simpl.
  destruct (ascii_dec a b); [apply IH|discriminate].
Qed.

Lemma contains_nil (sub : string) : PyStr.contains sub "" = String.prefix sub "".
Proof. simpl. apply orb_false_r. Qed.

Lemma contains_append_r (sub s q : string) :
  PyStr.contains sub s = true -> PyStr.contains sub (s +:+ q) = true.
Proof.
  induction s as [|c s IH]; intros H.
  - rewrite contains_nil in H. rewrite append_nil_l.
    destruct sub; [|discriminate]. now destruct q.
  - cbn [PyStr.contains] in H. apply orb_true_iff in H as [H|H].
    + apply (prefix_append _ _ q) in H. rewrite append_cons in *.
      cbn [PyStr.contains]. now rewrite H.
    + rewrite append_cons. cbn [PyStr.contains]. rewrite (IH H). apply orb_true_r.
Qed.

Lemma contains_append_l (sub p s : string) :
  PyStr.contains sub s = true -> PyStr.contains sub (p +:+ s) = true.
Proof.
  intros H. induction p as [|c p IH]; [exact H|].
  rewrite append_cons. cbn [PyStr.contains]. rewrite IH. apply orb_true_r.
Qed.

(** A text that holds a keyword still holds it with text around it. *)
Lemma contains_surrounded (sub p s q : string) :
  PyStr.contains sub s = true -> PyStr.contains sub (p +:+ s +:+ q) = true.
Proof. intros H. now apply contains_append_l, contains_append_r. Qed.

(** ** Risk scorer *)

(** The score in closed form over the lowercased fields. *)
Lemma rule_based_risk_score_weights
    (age : Z) (sex symptoms additional_symptoms : string) :
  rule_based_risk_score age sex symptoms additional_symptoms
  = Z.min 100
      (10 * signal_weights age sex
              (PyStr.lower symptoms +:+ " " +:+ PyStr.lower additional_symptoms)).
Proof.
  unfold rule_based_risk_score, signal_weights, weight. cbv zeta.
  rewrite !lower_append.
  change (PyStr.lower " ") with " ".
  destruct (PyStr.contains "chest pain" _ || PyStr.contains "breath" _),
    (PyStr.contains "bleeding" _), (PyStr.contains "fever" _),
    (PyStr.contains "rash" _), (60 <? age), (String.eqb (PyStr.lower sex) "male");
    reflexivity.
Qed.

Lemma weight_mono (b b' : bool) (w : Z) :
  0 <= w -> (b = true -> b' = true) -> weight b w <= weight b' w.
Proof.
  intros Hw Hb. destruct b, b'; simpl; try lia.
  all: try (specialize (Hb eq_refl); discriminate).
Qed.

(** X1: the score does not depend on the letter case of its inputs: two
    requests whose sex and symptom fields agree once lowercased get the
    same score. *)
Theorem X1_risk_score_case_insensitive
    (age : Z) (sex sex' symptoms symptoms' additional additional' : string) :
  PyStr.lower sex = PyStr.lower sex' ->
  PyStr.lower symptoms = PyStr.lower symptoms' ->
  PyStr.lower additional = PyStr.lower additional' ->
  rule_based_risk_score age sex symptoms additional
  = rule_based_risk_score age sex' symptoms' additional'.
Proof.
  intros Hsex Hsym Hadd. rewrite !rule_based_risk_score_weights.
  unfold signal_weights. now rewrite Hsex, Hsym, Hadd.
Qed.

Lemma X1_risk_score_case_insensitive_witness :
  rule_based_risk_score 30 "MALE" "Chest Pain" "FEVER"
  = rule_based_risk_score 30 "male" "chest pain" "fever".
Proof.
  apply (X1_risk_score_case_insensitive 30 "MALE" "male" "Chest Pain" "chest pain"
           "FEVER" "fever"); reflexivity.
Defined.

(** X2: text put before the symptoms or after the additional symptoms
    never lowers the score. *)
Theorem X2_risk_score_monotone
    (age : Z) (sex symptoms additional before after : string) :
  rule_based_risk_score age sex symptoms additional
  <= rule_based_risk_score age sex (before +:+ symptoms) (additional +:+ after).
Proof.
  rewrite !rule_based_risk_score_weights, !lower_append.
  set (txt := PyStr.lower symptoms +:+ " " +:+ PyStr.lower additional).
  replace ((PyStr.lower before +:+ PyStr.lower symptoms) +:+ " "
           +:+ PyStr.lower additional +:+ PyStr.lower after)
    with (PyStr.lower before +:+ txt +:+ PyStr.lower after)
    by (unfold txt; now rewrite !append_assoc).
  set (txt' := PyStr.lower before +:+ txt +:+ PyStr.lower after).
  assert (Hmono : forall k, PyStr.contains k txt = true -> PyStr.contains k txt' = true)
    by (intros k; apply contains_surrounded).
  assert (Hor : PyStr.contains "chest pain" txt || PyStr.contains "breath" txt = true ->
                PyStr.contains "chest pain" txt' || PyStr.contains "breath" txt' = true).
  { rewrite !orb_true_iff. intros [Hk|Hk]; [left|right]; now apply Hmono. }
  unfold signal_weights.
  pose proof (weight_mono _ _ 4 ltac:(lia) Hor).
  pose proof (weight_mono _ _ 4 ltac:(lia) (Hmono "bleeding")).
  pose proof (weight_mono _ _ 2 ltac:(lia) (Hmono "fever")).
  pose proof (weight_mono _ _ 1 ltac:(lia) (Hmono "rash")).
  lia.
Qed.

(** The same does not hold for text put between the two fields: a signal
    that straddles them is lost. *)
Example risk_score_straddle :
  rule_based_risk_score 30 "female" "chest" "pain" = 40
  /\ rule_based_risk_score 30 "female" ("chest" +:+ "!") "pain" = 0.
Proof. split; reflexivity. Qed.

(** X3: age and sex alone never escalate: a request whose text holds
    none of the five keywords scores at most 40, below the threshold. *)
Theorem X3_no_keyword_no_escalation
    (age : Z) (sex symptoms additional : string) :
  let txt := PyStr.lower (symptoms +:+ " " +:+ additional) in
  PyStr.contains "chest pain" txt = false ->
  PyStr.contains "breath" txt = false ->
  PyStr.contains "bleeding" txt = false ->
  PyStr.contains "fever" txt = false ->
  PyStr.contains "rash" txt = false ->
  rule_based_risk_score age sex symptoms additional
  = 10 * (weight (60 <? age) 3 + weight (String.eqb (PyStr.lower sex) "male") 1)
  /\ rule_based_risk_score age sex symptoms additional < 50.
Proof.
  intros txt H1 H2 H3 H4 H5. unfold rule_based_risk_score. cbv zeta.
  fold txt. rewrite H1, H2, H3, H4, H5. unfold weight.
  destruct (60 <? age), (String.eqb (PyStr.lower sex) "male"); simpl; lia.
Qed.

Lemma X3_no_keyword_no_escalation_witness :
  rule_based_risk_score 90 "male" "sore throat" "headache" = 10 * (3 + 1)
  /\ rule_based_risk_score 90 "male" "sore throat" "headache" < 50.
Proof.
  apply (X3_no_keyword_no_escalation 90 "male" "sore throat" "headache");
    reflexivity.
Defined.

(** X4: a text that holds "bleeding" together with "chest pain" or
    "breath" is escalated whatever the age and the sex: its score is at
    least 80. *)
Theorem X4_two_major_signals_escalate
    (age : Z) (sex symptoms additional : string) :
  let txt := PyStr.lower (symptoms +:+ " " +:+ additional) in
  PyStr.contains "bleeding" txt = true ->
  PyStr.contains "chest pain" txt || PyStr.contains "breath" txt = true ->
  80 <= rule_based_risk_score age sex symptoms additional.
Proof.
  intros txt Hb Hc. unfold rule_based_risk_score. cbv zeta. fold txt.
  rewrite Hb, Hc.
  destruct (PyStr.contains "fever" txt), (PyStr.contains "rash" txt), (60 <? age),
    (String.eqb (PyStr.lower sex) "male"); simpl; lia.
Qed.

Lemma X4_two_major_signals_escalate_witness :
  80 <= rule_based_risk_score 25 "female" "Bleeding" "short of BREATH".
Proof.
  apply (X4_two_major_signals_escalate 25 "female" "Bleeding" "short of BREATH");
    reflexivity.
Defined.

(** ** Cosine similarity on vectors of floats *)

Lemma SFmul_comm (x y : spec_float) : SFmul prec emax x y = SFmul prec emax y x.
Proof.
  destruct x as [sx|sx| |sx mx ex], y as [sy|sy| |sy my ey]; simpl;
    rewrite ?(xorb_comm sx sy); try reflexivity.
  now rewrite (Pos.mul_comm mx my), (Z.add_comm ex ey).
Qed.

Lemma float_mul_comm (x y : float) : (x * y = y * x)%float.
Proof. apply Prim2SF_inj. rewrite !mul_spec. apply SFmul_comm. Qed.

Lemma binary_round_aux_nonneg (m e : Z) (l : location) :
  sf_nonneg (binary_round_aux prec emax false m e l) = true.
Proof.
  unfold binary_round_aux.
  destruct (shr_fexp prec emax m e l) as [mrs' e'].
  destruct (shr_fexp prec emax _ e' loc_Exact) as [mrs'' e''].
  destruct (shr_m mrs''); [reflexivity| |reflexivity].
  now destruct (e'' <=? emax - prec).
Qed.

Lemma SFmul_square_nonneg (x : spec_float) : sf_nonneg (SFmul prec emax x x) = true.
Proof.
  destruct x as [s|s| |s m e]; simpl; rewrite ?xorb_nilpotent; try reflexivity.
  apply binary_round_aux_nonneg.
Qed.

Lemma SFadd_nonneg (x y : spec_float) :
  sf_nonneg x = true -> sf_nonneg y = true -> sf_nonneg (SFadd prec emax x y) = true.
Proof.
  destruct x as [sx|sx| |sx mx ex], y as [sy|sy| |sy my ey]; simpl;
    try (destruct sx); try (destruct sy); simpl; try congruence.
  intros _ _. unfold binary_normalize, binary_round.
  destruct (shl_align _ _ _) as [mz ez]. apply binary_round_aux_nonneg.
Qed.

Lemma sf_nonneg_not_below_zero (x : float) :
  sf_nonneg (Prim2SF x) = true -> (x <? 0)%float = false.
Proof.
  rewrite FloatAxioms.ltb_spec. change (Prim2SF 0) with (S754_zero false).
  destruct (Prim2SF x) as [[]|[]| |[] m e]; cbv; congruence.
Qed.

(** A sum of squares, added from a start that is not below zero, is not
    below zero. *)
Lemma sum_of_squares_nonneg (l : list float) (acc : float) :
  sf_nonneg (Prim2SF acc) = true ->
  sf_nonneg (Prim2SF (fold_left (fun acc p => (acc + fst p * snd p)%float)
                        (zip l l) acc)) = true.
Proof.
  revert acc. induction l as [|a l IH]; intros acc Hacc; [exact Hacc|].
  simpl. apply IH. rewrite add_spec, mul_spec.
  apply SFadd_nonneg; [exact Hacc|apply SFmul_square_nonneg].
Qed.

Lemma math_sqrt_sum_of_squares (l : list float) :
  math_sqrt (NFloat (fdot l l)) = Return (sqrt (fdot l l)).
Proof.
  unfold math_sqrt. cbn [to_float mbind outcome_bind].
  now rewrite (sf_nonneg_not_below_zero (fdot l l) (sum_of_squares_nonneg l 0%float eq_refl)).
Qed.

Lemma fold_products_sym (l1 l2 : list float) (acc : float) :
  fold_left (fun acc p => (acc + fst p * snd p)%float) (zip l1 l2) acc
  = fold_left (fun acc p => (acc + fst p * snd p)%float) (zip l2 l1) acc.
Proof.
  revert l2 acc. induction l1 as [|a l1 IH]; intros [|b l2] acc; simpl; try reflexivity.
  now rewrite IH, (float_mul_comm a b).
Qed.

(** The similarity of two non-empty vectors of floats in closed form:
    the square roots never fail, and the only exception left is the
    division. *)
Lemma cosine_similarity_floats (l1 l2 : list float) :
  l1 <> [] -> l2 <> [] ->
  cosine_similarity (vec l1) (vec l2)
  = if (sqrt (fdot l1 l1) =? 0)%float || (sqrt (fdot l2 l2) =? 0)%float
    then Return 0%float
    else true_div (NFloat (fdot l1 l2)) (sqrt (fdot l1 l1) * sqrt (fdot l2 l2))%float.
Proof.
  intros H1 H2. unfold cosine_similarity, vec.
  replace (truthy (PList (map PFloat l1))) with true by now destruct l1.
  replace (truthy (PList (map PFloat l2))) with true by now destruct l2.
  cbn [negb orb py_iter mbind outcome_bind].
  rewrite zip_vec, !dup_vec.
  rewrite !sum_products_floats by now apply zip_nonempty.
  cbn [mbind outcome_bind]. fold (fdot l1 l2) (fdot l1 l1) (fdot l2 l2).
  rewrite !math_sqrt_sum_of_squares. reflexivity.
Qed.

(** X5: on vectors of floats the similarity is symmetric, in its value
    and in its failure. *)
Theorem X5_cosine_similarity_symmetric (l1 l2 : list float) :
  cosine_similarity (vec l1) (vec l2) = cosine_similarity (vec l2) (vec l1).
Proof.
  destruct l1 as [|a l1].
  { rewrite cosine_similarity_falsy_l, cosine_similarity_falsy_r; reflexivity. }
  destruct l2 as [|b l2].
  { rewrite cosine_similarity_falsy_r, cosine_similarity_falsy_l; reflexivity. }
  rewrite !cosine_similarity_floats by congruence.
  rewrite (orb_comm (sqrt (fdot (b :: l2) (b :: l2)) =? 0)%float).
  rewrite (float_mul_comm (sqrt (fdot (b :: l2) (b :: l2)))).
  unfold fdot at 3 7. now rewrite fold_products_sym.
Qed.

Lemma zero_vector_fdot (l : list float) : zero_vector l -> fdot l l = 0%float.
Proof.
  intros Hz. apply Prim2SF_inj. unfold fdot.
  assert (Hgen : forall acc, Prim2SF acc = S754_zero false ->
            Prim2SF (fold_left (fun acc p => (acc + fst p * snd p)%float) (zip l l) acc)
            = S754_zero false).
  { induction Hz as [|a l Ha _ IH]; intros acc Hacc; [exact Hacc|].
    simpl. apply IH. rewrite add_spec, mul_spec, Hacc.
    rewrite FloatAxioms.eqb_spec in Ha. change (Prim2SF 0) with (S754_zero false) in Ha.
    destruct (Prim2SF a) as [[]|[]| |[] m e]; try (cbv in Ha; discriminate);
      reflexivity. }
  now apply Hgen.
Qed.

(** X6: a vector of floats whose components are all zero has similarity
    0.0 with every vector of floats, on either side: the guard on the
    norms answers before any division. *)
Theorem X6_zero_vector_similarity (l1 l2 : list float) :
  zero_vector l1 ->
  cosine_similarity (vec l1) (vec l2) = Return 0%float
  /\ cosine_similarity (vec l2) (vec l1) = Return 0%float.
Proof.
  intros Hz.
  assert (H12 : cosine_similarity (vec l1) (vec l2) = Return 0%float).
  { destruct l1 as [|a l1]; [now apply cosine_similarity_falsy_l|].
    destruct l2 as [|b l2]; [now apply cosine_similarity_falsy_r|].
    rewrite cosine_similarity_floats by congruence.
    now rewrite (zero_vector_fdot _ Hz). }
  split; [exact H12|].
  destruct l1 as [|a l1]; [now apply cosine_similarity_falsy_r|].
  destruct l2 as [|b l2]; [now apply cosine_similarity_falsy_l|].
  rewrite cosine_similarity_floats by congruence.
  rewrite (zero_vector_fdot _ Hz).
  change (sqrt 0 =? 0)%float with true. now rewrite orb_true_r.
Qed.

Lemma X6_zero_vector_similarity_witness :
  cosine_similarity (vec [0; -0; 0]%float) (vec [1; 2]%float) = Return 0%float
  /\ cosine_similarity (vec [1; 2]%float) (vec [0; -0; 0]%float) = Return 0%float.
Proof.
  apply (X6_zero_vector_similarity [0; -0; 0]%float [1; 2]%float).
  repeat constructor.
Defined.

(** ** The scan and the handler *)

Lemma best_match_loop_skips_unembedded (user_vec : pyval) (data : list dict) :
  forall (best_match : option dict) (best_score : float),
    (best_score <? 0)%float = false ->
    best_match_loop user_vec data best_match best_score
    = best_match_loop user_vec (List.filter embedded data) best_match best_score.
Proof.
  induction data as [|e data IH]; intros best_match best_score Hpos; [reflexivity|].
  cbn [List.filter]. unfold embedded at 1.
  destruct (truthy (dict_get e "embedding")) eqn:He.
  - cbn [best_match_loop].
    destruct (cosine_similarity user_vec (dict_get e "embedding")) as [sim|];
      [|reflexivity].
    cbn [mbind outcome_bind].
    destruct (best_score <? sim)%float eqn:Hlt; [|now apply IH].
    apply IH. exact (ltb_false_trans _ _ _ Hpos Hlt).
  - cbn [best_match_loop]. rewrite cosine_similarity_falsy_r by exact He.
    cbn [mbind outcome_bind]. rewrite Hpos. now apply IH.
Qed.

(** X7: records without a usable embedding (null, empty or absent) are
    inert: the scan gives the same result, value or failure, as on the
    knowledge base with those records removed. *)
Theorem X7_unembedded_records_are_inert (user_vec : pyval) (OTC_DATA : list dict) :
  best_match_loop user_vec OTC_DATA None 0%float
  = best_match_loop user_vec (List.filter embedded OTC_DATA) None 0%float.
Proof. apply best_match_loop_skips_unembedded, ltb_irrefl. Qed.

(** X8: what a request does to the outside world.  A high-risk request
    makes no call at all.  A low-risk request makes exactly one request
    to the embedding provider, with the two symptom fields joined by a
    space as prompt; it sends at most one mail, only after that request,
    only together with a prescription in the answer, and only to the
    non-empty address given as patient_email. *)
Theorem X8_handler_effects
    (w : world) (OTC_DATA : list dict)
    (name : string) (age : Z) (sex blood_group symptoms additional_symptoms : string)
    (patient_email : option string) (t : list event) :
  let risk := rule_based_risk_score age sex symptoms additional_symptoms in
  let post := EvPostEmbeddings E5_MODEL (symptoms +:+ " " +:+ additional_symptoms) in
  let run := generate_prescription w OTC_DATA name age sex blood_group symptoms
               additional_symptoms patient_email t in
  (50 <= risk /\ snd run = t)
  \/ (risk < 50 /\ snd run = t ++ [post]
      /\ ((exists e, fst run = Raise e) \/ patient_email = None \/ patient_email = Some ""))
  \/ (risk < 50
      /\ exists (to_email subject body filename file_bytes : string) (response : dict),
           snd run = t ++ [post; EvSendMail to_email subject body filename file_bytes]
           /\ patient_email = Some to_email /\ to_email <> ""
           /\ fst run = Return response).
Proof.
  intros risk post run.
  assert (Hrun : run = generate_prescription w OTC_DATA name age sex blood_group
                         symptoms additional_symptoms patient_email t) by reflexivity.
  clearbody run. unfold generate_prescription in Hrun. cbv zeta in Hrun.
  fold risk in Hrun. destruct (50 <=? risk) eqn:Hrisk.
  { left. subst run. split; [now apply Z.leb_le|reflexivity]. }
  apply Z.leb_gt in Hrisk. right.
  unfold mbind at 1 in Hrun. unfold io_bind at 1 in Hrun.
  rewrite ollama_embeddings_run in Hrun. fold post in Hrun.
  unfold mbind at 1 in Hrun. unfold io_bind at 1 in Hrun. unfold lift at 1 in Hrun.
  destruct (best_match_loop _ OTC_DATA None 0%float) as [[[[|field fields]|] score]|e].
  - left. subst run. split; [exact Hrisk|]. split; [reflexivity|]. left. now eexists.
  - unfold generate_id, observe, send_email_with_attachment, emit, mbind, io_bind, mret,
      io_ret in Hrun.
    destruct patient_email as [to_email|].
    2:{ left. subst run. split; [exact Hrisk|]. split; [reflexivity|]. right. now left. }
    destruct (String.eqb_spec to_email "") as [->|Hne]; cbn [negb] in Hrun; subst run.
    + left. split; [exact Hrisk|]. split; [reflexivity|]. right. now right.
    + right. split; [exact Hrisk|]. do 6 eexists.
      split; [cbn [snd]; rewrite <- app_assoc; reflexivity|].
      split; [reflexivity|]. split; [exact Hne|reflexivity].
  - left. subst run. split; [exact Hrisk|]. split; [reflexivity|]. left. now eexists.
  - left. subst run. split; [exact Hrisk|]. split; [reflexivity|]. left. now eexists.
Qed.

(** X9: what an answer guarantees.  An answer of the handler is either
    the high-risk answer of a request that scores 50 or more, or a
    prescription for a request that scores less: then the similarity it
    reports is above 0, the prescription echoes the name, age, sex and
    blood group of the request, and it copies the condition, the drug
    names, the precautions, the dosage, the duration and the age
    suitability from one record of the knowledge base, which has a
    usable embedding. *)
Theorem X9_answer_guarantees
    (w : world) (OTC_DATA : list dict)
    (name : string) (age : Z) (sex blood_group symptoms additional_symptoms : string)
    (patient_email : option string) (t t' : list event) (response : dict) :
  generate_prescription w OTC_DATA name age sex blood_group symptoms
    additional_symptoms patient_email t = (Return response, t') ->
  let risk := rule_based_risk_score age sex symptoms additional_symptoms in
  (50 <= risk /\ response = high_risk_response risk)
  \/ (risk < 50
      /\ exists (best_match prescription : dict) (score : float),
           response = [("ok", PBool true); ("risk_score", PInt risk);
                       ("similarity", PFloat score);
                       ("prescription", PDict prescription)]
           /\ best_match ∈ OTC_DATA /\ embedded best_match = true
           /\ (0 <? score)%float = true
           /\ dict_get prescription "Name" = PStr name
           /\ dict_get prescription "Age" = PInt age
           /\ dict_get prescription "Sex" = PStr sex
           /\ dict_get prescription "Blood Group" = PStr blood_group
           /\ Forall (fun k => dict_get prescription k = dict_get best_match k)
                     copied_keys).
Proof.
  intros Hrun risk. revert Hrun. unfold generate_prescription. cbv zeta.
  fold risk. destruct (50 <=? risk) eqn:Hrisk.
  { intros [= <- _]. left. split; [now apply Z.leb_le|reflexivity]. }
  apply Z.leb_gt in Hrisk.
  unfold mbind at 1. unfold io_bind at 1. rewrite ollama_embeddings_run.
  unfold mbind at 1. unfold io_bind at 1. unfold lift at 1.
  destruct (best_match_loop _ OTC_DATA None 0%float)
    as [[[best_match|] score]|e] eqn:Hscan; try discriminate.
  destruct (best_match_loop_winner _ OTC_DATA None 0%float best_match score
              (ltb_irrefl 0%float) Hscan)
    as [_ [[Hnone _]|(Hin & _ & Hemb & Hgt)]]; [discriminate|].
  destruct best_match as [|field fields]; [discriminate|].
  unfold generate_id, observe, send_email_with_attachment, emit, mbind, io_bind, mret,
    io_ret.
  intros Hrun. right. split; [exact Hrisk|].
  exists (field :: fields).
  destruct patient_email as [to_email|];
    [destruct (negb (String.eqb to_email ""))|];
    injection Hrun as <- _; do 2 eexists;
    (split; [reflexivity|]); repeat split; auto; repeat constructor.
Qed.

Lemma X9_answer_guarantees_witness :
  (50 <= 10 /\ cold_response = high_risk_response 10)
  \/ (10 < 50
      /\ exists (best_match prescription : dict) (score : float),
           cold_response
           = [("ok", PBool true); ("risk_score", PInt 10);
              ("similarity", PFloat score);
              ("prescription", PDict prescription)]
           /\ best_match ∈ two_records /\ embedded best_match = true
           /\ (0 <? score)%float = true
           /\ dict_get prescription "Name" = PStr "Asha"
           /\ dict_get prescription "Age" = PInt 30
           /\ dict_get prescription "Sex" = PStr "male"
           /\ dict_get prescription "Blood Group" = PStr "O+"
           /\ Forall (fun k => dict_get prescription k = dict_get best_match k)
                     copied_keys).
Proof.
  apply (X9_answer_guarantees
           (world_with (Some (PDict [("embedding", vec [1; 0]%float)]))) two_records
           "Asha" 30 "male" "O+" "cough" "" None []
           [EvPostEmbeddings E5_MODEL "cough "] cold_response).
  vm_compute. reflexivity.
Defined.

Lemma cosine_similarity_bad_component (x : pyval) (xs : list pyval) (embedding : pyval) :
  num_of x = Raise Fault -> truthy embedding = true ->
  cosine_similarity (PList (x :: xs)) embedding = Raise Fault.
Proof.
  intros Hx Hemb. unfold cosine_similarity. rewrite Hemb.
  cbn [truthy negb orb py_iter mbind outcome_bind].
  destruct embedding as [| | | |s|l|d]; try reflexivity; try discriminate.
  - destruct s as [|c s]; [discriminate|].
    cbn. unfold py_mul. now rewrite Hx.
  - destruct l as [|y l]; [discriminate|].
    cbn. unfold py_mul. now rewrite Hx.
  - destruct d as [|kv d]; [discriminate|].
    cbn. unfold py_mul. now rewrite Hx.
Qed.

(** X10: the vector the provider answers with is not validated.  When
    it is a list whose first element is not a number (as the list of
    vectors found under "embeddings", which is handed back whole) and the
    first record of the knowledge base has a usable embedding, a low-risk
    request fails with an uncaught exception instead of an answer or a
    404, after its request to the provider. *)
Theorem X10_unvalidated_vector_faults
    (w : world) (first : dict) (others : list dict)
    (name : string) (age : Z) (sex blood_group symptoms additional_symptoms : string)
    (patient_email : option string) (t t' : list event)
    (x : pyval) (xs : list pyval) :
  rule_based_risk_score age sex symptoms additional_symptoms < 50 ->
  ollama_embeddings w (symptoms +:+ " " +:+ additional_symptoms) t
    = (Return (PList (x :: xs)), t') ->
  num_of x = Raise Fault ->
  embedded first = true ->
  generate_prescription w (first :: others) name age sex blood_group symptoms
    additional_symptoms patient_email t
  = (Raise Fault, t').
Proof.
  intros Hrisk Hembed Hx Hfirst. unfold generate_prescription. cbv zeta.
  apply Z.leb_gt in Hrisk. rewrite Hrisk.
  unfold mbind at 1. unfold io_bind at 1. rewrite Hembed.
  unfold mbind at 1. unfold io_bind at 1. unfold lift at 1.
  cbn [best_match_loop].
  now rewrite (cosine_similarity_bad_component x xs _ Hx Hfirst).
Qed.

Lemma X10_unvalidated_vector_faults_witness :
  generate_prescription
    (world_with (Some (PDict [("embeddings", PList [vec [1; 0]%float])])))
    two_records "Asha" 30 "male" "O+" "cough" "" None []
  = (Raise Fault, [EvPostEmbeddings E5_MODEL "cough "]).
Proof.
  apply (X10_unvalidated_vector_faults
           (world_with (Some (PDict [("embeddings", PList [vec [1; 0]%float])])))
           (record "Common Cold" (vec [1; 0]%float))
           [record "Flu" (vec [0; 1]%float)]
           "Asha" 30 "male" "O+" "cough" "" None []
           [EvPostEmbeddings E5_MODEL "cough "] (vec [1; 0]%float) []);
    vm_compute; reflexivity.
Defined.

(** ** Start-up: liveness probe and embedding of the knowledge base *)

Lemma probe_match {A : Type} (status : option Z) (a b : A) :
  match status with Some 200 => a | _ => b end
  = if decide (status = Some 200) then a else b.
Proof.
  destruct (decide (status = Some 200)) as [->|Hne]; [reflexivity|].
  destruct status as [code|]; [|reflexivity].
  destruct code as [|p|p]; try reflexivity.
  do 8 (destruct p as [p|p|]; try reflexivity). congruence.
Qed.

Lemma failed_rounds_S (delay : Z) (k : nat) (t tail : list event) :
  (t ++ [EvGetTags; EvSleep delay]) ++ failed_rounds delay k ++ tail
  = t ++ failed_rounds delay (S k) ++ tail.
Proof.
  unfold failed_rounds. cbn [replicate concat]. now rewrite <- !app_assoc.
Qed.

Lemma time_sleep_ok (w : world) (delay : Z) (t : list event) :
  0 <= delay -> delay <= sleep_limit w t ->
  time_sleep w delay t = (Return tt, t ++ [EvSleep delay]).
Proof.
  intros Hpos Hmax. unfold time_sleep.
  replace (delay <? 0) with false by (symmetry; apply Z.ltb_ge; lia).
  replace (sleep_limit w t <? delay) with false by (symmetry; apply Z.ltb_ge; lia).
  reflexivity.
Qed.

Lemma time_sleep_refused (w : world) (delay : Z) (t : list event) :
  delay < 0 \/ sleep_limit w t < delay ->
  time_sleep w delay t = (Raise Fault, t).
Proof.
  intros Hbad. unfold time_sleep.
  replace ((delay <? 0) || (sleep_limit w t <? delay)) with true; [reflexivity|].
  symmetry. apply orb_true_iff. rewrite !Z.ltb_lt. exact Hbad.
Qed.

Lemma check_attempts_spec (w : world) (delay : Z) (n : nat) :
  0 <= delay -> (forall t0, delay <= sleep_limit w t0) ->
  forall t : list event,
  exists (k : nat) (ready : bool),
    check_attempts w delay n t
    = (Return ready,
       t ++ failed_rounds delay k ++ (if ready then [EvGetTags] else []))
    /\ (k <= n)%nat
    /\ (ready = false -> k = n)
    /\ (ready = true ->
        (k < n)%nat
        /\ get_tags w (t ++ failed_rounds delay k ++ [EvGetTags]) = Some 200)
    /\ (forall j, (j < k)%nat ->
        get_tags w (t ++ failed_rounds delay j ++ [EvGetTags]) <> Some 200).
Proof.
  intros Hpos Hmax. induction n as [|n IH]; intros t.
  - exists 0%nat, false. cbn. rewrite app_nil_r.
    repeat split; try lia; discriminate.
  - cbn [check_attempts]. unfold mbind, io_bind, emit, observe.
    rewrite probe_match.
    destruct (decide (get_tags w (t ++ [EvGetTags]) = Some 200)) as [Hok|Hko].
    + exists 0%nat, true. cbn. repeat split; try lia; try discriminate; auto.
    + rewrite (time_sleep_ok w delay _ Hpos (Hmax _)).
      replace ((t ++ [EvGetTags]) ++ [EvSleep delay])
        with (t ++ [EvGetTags; EvSleep delay]) by now rewrite <- app_assoc.
      destruct (IH (t ++ [EvGetTags; EvSleep delay]))
        as (k & ready & Hrun & Hle & Hfalse & Htrue & Hbefore).
      exists (S k), ready. rewrite Hrun, failed_rounds_S.
      split; [reflexivity|]. split; [lia|]. split; [|split].
      * intros Hr. now rewrite (Hfalse Hr).
      * intros Hr. destruct (Htrue Hr) as [Hlt H200].
        rewrite failed_rounds_S in H200. split; [lia|exact H200].
      * intros [|j] Hj; [exact Hko|].
        specialize (Hbefore j ltac:(lia)).
        now rewrite failed_rounds_S in Hbefore.
Qed.

(** A probe that fails is followed by the sleep: with a delay the sleep
    refuses, the check raises there. *)
Lemma check_attempts_bad_delay (w : world) (delay : Z) (n : nat) (t : list event) :
  delay < 0 \/ (forall t0, sleep_limit w t0 < delay) ->
  check_attempts w delay (S n) t
  = if decide (get_tags w (t ++ [EvGetTags]) = Some 200)
    then (Return true, t ++ [EvGetTags])
    else (Raise Fault, t ++ [EvGetTags]).
Proof.
  intros Hbad. cbn [check_attempts]. unfold mbind, io_bind, emit, observe.
  rewrite probe_match.
  destruct (decide (get_tags w (t ++ [EvGetTags]) = Some 200)); [reflexivity|].
  rewrite time_sleep_refused; [reflexivity|].
  destruct Hbad as [Hneg|Hbig]; [now left|right; apply Hbig].
Qed.

(** X11: the liveness check with a delay the sleep takes (not negative,
    not beyond what the platform allows) never raises.  It probes until
    the first answer with status 200 and then says True without sleeping;
    after every other probe, the last one included, it sleeps for the
    delay; it gives up and says False after as many probes as retries
    allow, which is at once and without a probe when retries is zero or
    negative.  With a delay the sleep refuses, a negative one for
    instance, and at least one attempt allowed, it says True when the
    first probe answers 200 and raises right after that probe when it
    does not. *)
Theorem X11_check_ollama_ready_rounds
    (w : world) (retries delay : Z) (t : list event) :
  (0 <= delay -> (forall t0, delay <= sleep_limit w t0) ->
   exists (k : nat) (ready : bool),
     check_ollama_ready w retries delay t
     = (Return ready,
        t ++ failed_rounds delay k ++ (if ready then [EvGetTags] else []))
     /\ (ready = false -> Z.of_nat k = Z.max 0 retries)
     /\ (ready = true ->
         Z.of_nat k < retries
         /\ get_tags w (t ++ failed_rounds delay k ++ [EvGetTags]) = Some 200)
     /\ (forall j, (j < k)%nat ->
         get_tags w (t ++ failed_rounds delay j ++ [EvGetTags]) <> Some 200))
  /\ (delay < 0 \/ (forall t0, sleep_limit w t0 < delay) ->
      0 < retries ->
      check_ollama_ready w retries delay t
      = if decide (get_tags w (t ++ [EvGetTags]) = Some 200)
        then (Return true, t ++ [EvGetTags])
        else (Raise Fault, t ++ [EvGetTags])).
Proof.
  unfold check_ollama_ready. split.
  - intros Hpos Hmax.
    destruct (check_attempts_spec w delay (Z.to_nat retries) Hpos Hmax t)
      as (k & ready & Hrun & Hle & Hfalse & Htrue & Hbefore).
    exists k, ready. split; [exact Hrun|]. split; [|split; [|exact Hbefore]].
    + intros Hr. rewrite (Hfalse Hr). lia.
    + intros Hr. destruct (Htrue Hr) as [Hlt H200]. split; [lia|exact H200].
  - intros Hbad Hretries.
    destruct (Z.to_nat retries) as [|n] eqn:Hn; [lia|].
    now apply check_attempts_bad_delay.
Qed.

Lemma X11_check_ollama_ready_rounds_witness :
  (exists (k : nat) (ready : bool),
     check_ollama_ready world_with_file 2 5 []
     = (Return ready,
        [] ++ failed_rounds 5 k ++ (if ready then [EvGetTags] else []))
     /\ (ready = false -> Z.of_nat k = Z.max 0 2)
     /\ (ready = true ->
         Z.of_nat k < 2
         /\ get_tags world_with_file ([] ++ failed_rounds 5 k ++ [EvGetTags]) = Some 200)
     /\ (forall j, (j < k)%nat ->
         get_tags world_with_file ([] ++ failed_rounds 5 j ++ [EvGetTags]) <> Some 200))
  /\ check_ollama_ready world_with_file 1 (-1) []
     = if decide (get_tags world_with_file ([] ++ [EvGetTags]) = Some 200)
       then (Return true, [] ++ [EvGetTags])
       else (Raise Fault, [] ++ [EvGetTags]).
Proof.
  split.
  - apply (proj1 (X11_check_ollama_ready_rounds world_with_file 2 5 []));
      [lia|intros t0; cbn; lia].
  - apply (proj2 (X11_check_ollama_ready_rounds world_with_file 1 (-1) []));
      [left; lia|lia].
Defined.

Example check_ollama_ready_ex :
  check_ollama_ready world_with_file 2 5 []
  = (Return false, [EvGetTags; EvSleep 5; EvGetTags; EvSleep 5])
  /\ check_ollama_ready world_with_file 2 (-1) [] = (Raise Fault, [EvGetTags]).
Proof. split; vm_compute; reflexivity. Qed.






Lemma same_fields_set (v : pyval) (entry : dict) :
  same_fields entry (dict_set "embedding" v entry).
Proof.
  intros k Hk. rewrite dict_lookup_set.
  destruct (String.eqb_spec k "embedding"); congruence.
Qed.

Lemma same_fields_refl (entry : dict) : same_fields entry entry.
Proof. now intros k _. Qed.

Lemma embed_entry_spec (w : world) (entry : dict) (t : list event) :
  exists entry' : dict,
    embed_entry w entry t
    = (Return entry',
       t ++ match condition_to_embed entry with
            | Some condition => [EvPostEmbeddings E5_MODEL condition]
            | None => []
            end)
    /\ same_fields entry entry'.
Proof.
  unfold embed_entry, condition_to_embed.
  destruct (dict_lookup "Condition" entry) as [[| | | |condition| |]|];
    try (exists entry; rewrite app_nil_r; split; [reflexivity|apply same_fields_refl]).
  destruct (String.eqb condition ""); cbn [negb].
  - exists entry. rewrite app_nil_r. split; [reflexivity|apply same_fields_refl].
  - unfold mbind, io_bind. rewrite ollama_embeddings_run.
    eexists. split; [reflexivity|apply same_fields_set].
Qed.

Lemma embed_entries_spec (w : world) (data : list dict) :
  forall t : list event,
  exists data' : list dict,
    embed_entries w data t
    = (Return data',
       t ++ map (EvPostEmbeddings E5_MODEL) (omap condition_to_embed data))
    /\ Forall2 same_fields data data'.
Proof.
  induction data as [|entry data IH]; intros t.
  - exists []. cbn. rewrite app_nil_r. split; [reflexivity|constructor].
  - cbn [embed_entries]. unfold mbind at 1. unfold io_bind at 1.
    destruct (embed_entry_spec w entry t) as (entry' & -> & Hsame).
    unfold mbind at 1. unfold io_bind at 1.
    destruct (IH (t ++ match condition_to_embed entry with
                       | Some condition => [EvPostEmbeddings E5_MODEL condition]
                       | None => []
                       end)) as (data' & -> & Hall).
    exists (entry' :: data'). split; [|now constructor].
    change (omap condition_to_embed (entry :: data))
      with (match condition_to_embed entry with
            | Some c => c :: omap condition_to_embed data
            | None => omap condition_to_embed data
            end).
    destruct (condition_to_embed entry); cbn [map];
      now rewrite <- app_assoc.
Qed.

(** X13: embedding the knowledge base never raises and makes exactly one
    request to the embedding endpoint per record whose condition is a
    non-empty string, in knowledge-base order and with that condition as
    prompt; it returns as many records, in the same order, each with the
    fields it had, "embedding" apart. *)
Theorem X13_embed_entries_requests (w : world) (data : list dict) (t : list event) :
  exists data' : list dict,
    embed_entries w data t
    = (Return data',
       t ++ map (EvPostEmbeddings E5_MODEL) (omap condition_to_embed data))
    /\ Forall2 same_fields data data'.
Proof. apply embed_entries_spec. Qed.



Example startup_ready_ex :
  startup world_ready []
  = (Return [[("Condition", PStr "Common Cold"); ("Dosages", PStr "1 tablet");
              ("embedding", vec [1; 0]%float)];
             [("Condition", PStr "Flu"); ("embedding", vec [1; 0]%float)]],
     [EvGetTags; EvPostEmbeddings E5_MODEL "Common Cold";
      EvPostEmbeddings E5_MODEL "Flu"]).
Proof. vm_compute. reflexivity. Qed.

(** ** Knowledge-base loader: what a loaded record looks like *)

Lemma substring_of_refl (s : string) : substring_of s s.
Proof.
  exists "", "". rewrite append_nil_l.
  induction s as [|c s IH]; [reflexivity|]. now rewrite append_cons, <- IH.
Qed.

Lemma substring_of_trans (a b c : string) :
  substring_of a b -> substring_of b c -> substring_of a c.
Proof.
  intros (p & q & ->) (p' & q' & ->). exists (p' +:+ p), (q +:+ q').
  now rewrite !append_assoc.
Qed.

Lemma substring_of_cons (c : ascii) (f s : string) :
  substring_of f s -> substring_of f (String c s).
Proof. intros (p & q & ->). now exists (String c p), q. Qed.



Lemma lstrip_suffix (s : string) : exists p, s = p +:+ PyStr.lstrip s.
Proof.
  induction s as [|c s [p IH]]; [now exists ""|]. cbn [PyStr.lstrip].
  destruct (PyStr.is_space c); [|now exists ""].
  exists (String c p). now rewrite append_cons, <- IH.
Qed.

Lemma rstrip_prefix (s : string) : exists q, s = PyStr.rstrip s +:+ q.
Proof.
  induction s as [|c s [q IH]]; [now exists ""|]. cbn [PyStr.rstrip].
  destruct (PyStr.rstrip s) as [|c' r] eqn:Hr.
  - destruct (PyStr.is_space c); [now exists (String c s)|now exists s].
  - exists q. now rewrite append_cons, <- IH.
Qed.

Lemma strip_substring (s : string) : substring_of (PyStr.strip s) s.
Proof.
  unfold PyStr.strip. destruct (lstrip_suffix s) as [p Hp].
  destruct (rstrip_prefix (PyStr.lstrip s)) as [q Hq].
  exists p, q. now rewrite <- Hq.
Qed.

Lemma rstrip_idem (s : string) : PyStr.rstrip (PyStr.rstrip s) = PyStr.rstrip s.
Proof.
  induction s as [|c s IH]; [reflexivity|]. cbn [PyStr.rstrip].
  destruct (PyStr.rstrip s) as [|c' r] eqn:Hr.
  - destruct (PyStr.is_space c) eqn:Hc; [reflexivity|].
    cbn [PyStr.rstrip]. now rewrite Hc.
  - cbn [PyStr.rstrip] in *. now rewrite IH.
Qed.

Lemma lstrip_rstrip_lstrip (s : string) :
  PyStr.lstrip (PyStr.rstrip (PyStr.lstrip s)) = PyStr.rstrip (PyStr.lstrip s).
Proof.
  induction s as [|c s IH]; [reflexivity|]. cbn [PyStr.lstrip].
  destruct (PyStr.is_space c) eqn:Hc; [exact IH|].
  cbn [PyStr.rstrip].
  destruct (PyStr.rstrip s); rewrite ?Hc; cbn [PyStr.lstrip]; now rewrite Hc.
Qed.

Lemma strip_idem (s : string) : PyStr.strip (PyStr.strip s) = PyStr.strip s.
Proof. unfold PyStr.strip. now rewrite lstrip_rstrip_lstrip, rstrip_idem. Qed.

Lemma contains_colon_false_substring (f s : string) :
  substring_of f s -> PyStr.contains ":" s = false -> PyStr.contains ":" f = false.
Proof.
  intros (p & q & ->) Hs. destruct (PyStr.contains ":" f) eqn:Hf; [|reflexivity].
  now rewrite (contains_surrounded ":" p f q Hf) in Hs.
Qed.

Lemma split_once_spec (s k v : string) :
  PyStr.split_once colon s = Some (k, v) ->
  s = k +:+ ":" +:+ v /\ PyStr.contains ":" k = false.
Proof.
  revert k. induction s as [|c s IH]; intros k; [discriminate|].
  cbn [PyStr.split_once]. destruct (Ascii.eqb_spec c colon) as [->|Hne].
  - intros [= <- <-]. split; reflexivity.
  - destruct (PyStr.split_once colon s) as [[k' v']|]; [|discriminate].
    intros [= <- <-]. destruct (IH k' eq_refl) as [-> Hk]. split; [reflexivity|].
    rewrite contains_colon_cons, Hk.
    destruct (Ascii.eqb_spec c colon); [congruence|reflexivity].
Qed.

Lemma line_field_clean (line : string) (kv : string * pyval) :
  line_field line = Some kv -> clean_field kv /\ substring_of (fst kv) line.
Proof.
  unfold line_field.
  destruct (PyStr.split_once colon line) as [[k v]|] eqn:Hkv; [|discriminate].
  intros [= <-]. destruct (split_once_spec _ _ _ Hkv) as [-> Hk].
  split; [split; [|split]|]; cbn [fst snd].
  - apply strip_idem.
  - exact (contains_colon_false_substring _ _ (strip_substring k) Hk).
  - exists (PyStr.strip v). split; [reflexivity|apply strip_idem].
  - apply (substring_of_trans _ k); [apply strip_substring|].
    exists "", (":" +:+ v). now rewrite append_nil_l.
Qed.



Lemma add_field_line_field (entry : dict) (line : string) :
  add_field entry line
  = match line_field line with
    | Some kv => dict_set (fst kv) (snd kv) entry
    | None => entry
    end.
Proof.
  unfold add_field, line_field.
  now destruct (PyStr.split_once colon line) as [[k v]|].
Qed.

Lemma dict_set_key_in (x k : string) (v : pyval) (d : dict) :
  x ∈ map fst (dict_set k v d) -> x = k \/ x ∈ map fst d.
Proof.
  induction d as [|[k' v'] d IH]; cbn [dict_set map fst].
  - intros Hx. apply list_elem_of_singleton in Hx. now left.
  - destruct (String.eqb k k'); cbn [map fst]; [now right|].
    intros Hx. apply elem_of_cons in Hx as [->|Hx]; [right; left|].
    destruct (IH Hx) as [->|Hin]; [now left|right; now right].
Qed.

Lemma dict_set_NoDup (k : string) (v : pyval) (d : dict) :
  NoDup (map fst d) -> NoDup (map fst (dict_set k v d)).
Proof.
  induction d as [|[k' v'] d IH]; cbn [dict_set map fst]; intros Hd.
  - apply NoDup_singleton.
  - apply NoDup_cons in Hd as [Hk' Hd].
    destruct (String.eqb_spec k k') as [->|Hne]; cbn [map fst].
    + now apply NoDup_cons.
    + apply NoDup_cons. split; [|now apply IH].
      intros Hin. destruct (dict_set_key_in _ _ _ _ Hin); congruence.
Qed.

Lemma dict_set_Forall (P : string * pyval -> Prop) (k : string) (v : pyval) (d : dict) :
  P (k, v) -> Forall P d -> Forall P (dict_set k v d).
Proof.
  intros Hkv. induction d as [|[k' v'] d IH]; cbn [dict_set]; intros Hd.
  - now constructor.
  - apply Forall_cons in Hd as [Hk' Hd].
    destruct (String.eqb_spec k k') as [->|Hne]; constructor; auto.
Qed.

Lemma fold_add_field_inv (P : string * pyval -> Prop) (lines : list string) :
  (forall line kv, line ∈ lines -> line_field line = Some kv -> P kv) ->
  forall entry : dict,
    NoDup (map fst entry) -> Forall P entry ->
    NoDup (map fst (fold_left add_field lines entry))
    /\ Forall P (fold_left add_field lines entry).
Proof.
  induction lines as [|line lines IH]; intros Hlines entry Hnd Hall; [now split|].
  cbn [fold_left]. apply IH.
  - intros l kv Hl. apply Hlines. now right.
  - rewrite add_field_line_field.
    destruct (line_field line) as [[k v]|]; [now apply dict_set_NoDup|exact Hnd].
  - rewrite add_field_line_field.
    destruct (line_field line) as [[k v]|] eqn:Hf; [|exact Hall].
    apply dict_set_Forall; [|exact Hall]. apply (Hlines line); [left|exact Hf].
Qed.

(** A field of a split text occurs in the text; the first field, when
    no character is being skipped, begins it. *)
Lemma split_from_substrings (sep s : string) :
  forall (skip : nat) (f : string) (fs : list string),
    PyStr.split_from sep skip s = (f, fs) ->
    (skip = 0%nat -> exists q, s = f +:+ q)
    /\ substring_of f s
    /\ forall g, g ∈ fs -> substring_of g s.
Proof.
  induction s as [|c s IH]; intros skip f fs; cbn [PyStr.split_from].
  - intros [= <- <-]. split; [now exists ""|].
    split; [apply substring_of_refl|]. intros g Hg. now apply elem_of_nil in Hg.
  - destruct skip as [|k].
    + destruct (String.prefix sep (String c s)).
      * destruct (PyStr.split_from sep (String.length sep - 1) s) as [f' fs'] eqn:Hs.
        intros [= <- <-]. destruct (IH _ _ _ Hs) as (_ & Hf' & Hfs').
        split; [now exists (String c s)|].
        split; [now exists "", (String c s)|].
        intros g Hg. apply substring_of_cons.
        apply elem_of_cons in Hg as [->|Hg]; auto.
      * destruct (PyStr.split_from sep 0 s) as [f' fs'] eqn:Hs.
        intros [= <- <-]. destruct (IH _ _ _ Hs) as (Hpre & _ & Hfs').
        destruct (Hpre eq_refl) as [q Hq].
        split; [intros _; exists q; now rewrite append_cons, <- Hq|].
        split; [exists "", q; now rewrite append_nil_l, append_cons, <- Hq|].
        intros g Hg. apply substring_of_cons. auto.
    + intros Hs. destruct (IH _ _ _ Hs) as (_ & Hf & Hfs).
      split; [discriminate|]. split; [now apply substring_of_cons|].
      intros g Hg. apply substring_of_cons. auto.
Qed.

Lemma split_substring (sep s f : string) :
  f ∈ PyStr.split sep s -> substring_of f s.
Proof.
  unfold PyStr.split. destruct (PyStr.split_from sep 0 s) as [f0 fs] eqn:Hs.
  destruct (split_from_substrings _ _ _ _ _ Hs) as (_ & Hf0 & Hfs).
  intros Hf. apply elem_of_cons in Hf as [->|Hf]; auto.
Qed.

(** The entry of a block: its keys are distinct, its fields are clean,
    and every key occurs in the text of the block. *)
Lemma parse_block_inv (block : string) :
  NoDup (map fst (parse_block block))
  /\ Forall (fun kv => clean_field kv /\ substring_of (fst kv) block)
            (parse_block block).
Proof.
  unfold parse_block. cbv zeta. apply fold_add_field_inv.
  - intros line kv Hline Hfield.
    apply list_elem_of_fmap in Hline as (l & -> & Hl).
    apply list_elem_of_In, filter_In in Hl as [Hl _]. apply list_elem_of_In in Hl.
    destruct (line_field_clean _ _ Hfield) as [Hclean Hsub].
    split; [exact Hclean|].
    apply (substring_of_trans _ _ _ Hsub).
    apply (substring_of_trans _ l); [apply strip_substring|].
    exact (split_substring _ _ _ Hl).
  - constructor.
  - constructor.
Qed.

Lemma read_otc_file_readable (w : world) (filepath content : string) :
  files w filepath = Readable content ->
  read_otc_file w filepath
  = Return (List.filter (dict_mem "Condition")
              (map parse_block
                   (PyStr.split (PyStr.nl +:+ PyStr.nl) (PyStr.strip content)))).
Proof.
  intros Hfile. unfold read_otc_file. rewrite Hfile. cbv zeta. f_equal.
  apply (fold_left_append_filter parse_block (dict_mem "Condition")).
Qed.

Lemma read_otc_file_elem (w : world) (filepath : string) (entries : list dict)
    (entry : dict) :
  read_otc_file w filepath = Return entries ->
  entry ∈ entries ->
  exists content block,
    files w filepath = Readable content
    /\ block ∈ PyStr.split (PyStr.nl +:+ PyStr.nl) (PyStr.strip content)
    /\ entry = parse_block block
    /\ dict_mem "Condition" entry = true.
Proof.
  destruct (files w filepath) as [| |content] eqn:Hfile.
  - unfold read_otc_file. rewrite Hfile. intros [= <-] H. now apply elem_of_nil in H.
  - unfold read_otc_file. now rewrite Hfile.
  - rewrite (read_otc_file_readable _ _ _ Hfile). intros [= <-] Hin.
    apply list_elem_of_In, filter_In in Hin as [Hin Hcond].
    apply list_elem_of_In, list_elem_of_fmap in Hin as (block & -> & Hblock).
    now exists content, block.
Qed.


(** X16: what a loaded record looks like.  Every record [read_otc_file]
    returns has the key "Condition"; its keys are pairwise distinct,
    stripped of surrounding whitespace and free of colons; its values are
    strings stripped of surrounding whitespace. *)
Theorem X16_loaded_record_shape (w : world) (filepath : string)
    (entries : list dict) (entry : dict) :
  read_otc_file w filepath = Return entries ->
  entry ∈ entries ->
  dict_mem "Condition" entry = true
  /\ NoDup (map fst entry)
  /\ Forall clean_field entry.
Proof.
  intros Hread Hin.
  destruct (read_otc_file_elem _ _ _ _ Hread Hin) as (content & block & _ & _ & -> & Hc).
  destruct (parse_block_inv block) as [Hnd Hall].
  split; [exact Hc|]. split; [exact Hnd|].
  eapply Forall_impl; [exact Hall|]. now intros kv [Hclean _].
Qed.

Lemma X16_loaded_record_shape_witness :
  dict_mem "Condition" [("Condition", PStr "Flu")] = true
  /\ NoDup (map fst [("Condition", PStr "Flu")])
  /\ Forall clean_field [("Condition", PStr "Flu")].
Proof.
  apply (X16_loaded_record_shape world_with_file OTC_FILE_PATH
           [[("Condition", PStr "Common Cold"); ("Dosages", PStr "1 tablet")];
            [("Condition", PStr "Flu")]]
           [("Condition", PStr "Flu")]).
  - vm_compute. reflexivity.
  - right. left.
Defined.



(** ** Knowledge-base loader: from the text of the file to the records *)



(** *** Stripping *)


Lemma lstrip_starts_nonspace (s : string) :
  starts_nonspace s = true -> PyStr.lstrip s = s.
Proof.
  destruct s as [|c s]; [discriminate|]. cbn [starts_nonspace PyStr.lstrip].
  now intros ->%negb_true_iff.
Qed.



Lemma rstrip_ends_nonspace (s : string) :
  ends_nonspace s = true -> PyStr.rstrip s = s.
Proof.
  induction s as [|c s IH]; [discriminate|]. cbn [ends_nonspace PyStr.rstrip].
  destruct s as [|c' s].
  - now intros ->%negb_true_iff.
  - intros Hs. now rewrite (IH Hs).
Qed.


Lemma strip_trimmed (s : string) : trimmed s = true -> PyStr.strip s = s.
Proof.
  destruct s as [|c s]; [reflexivity|]. unfold trimmed.
  intros [Hs He]%andb_true_iff. unfold PyStr.strip.
  rewrite (lstrip_starts_nonspace _ Hs). now apply rstrip_ends_nonspace.
Qed.






(** *** Colons *)










(** *** Splitting at newlines *)





(** *** Splitting at empty lines *)






(** *** The text of a block *)

















(** *** Every text is a text of blocks *)

Lemma append_nil_r (s : string) : s +:+ "" = s.
Proof. induction s as [|c s IH]; [reflexivity|]. now rewrite append_cons, IH. Qed.






















(** ** OTP bookkeeping: generation and verification together *)

Lemma int_digits_six (fuel : nat) (n : Z) :
  (6 <= fuel)%nat -> 100000 <= n <= 999999 ->
  int_digits fuel n ""
  = String (digit_char (n / 100000 mod 10))
      (String (digit_char (n / 10000 mod 10))
         (String (digit_char (n / 1000 mod 10))
            (String (digit_char (n / 100 mod 10))
               (String (digit_char (n / 10 mod 10))
                  (String (digit_char (n mod 10)) ""))))).
Proof.
  intros Hfuel Hn.
  do 6 (destruct fuel as [|fuel]; [lia|]).
  cbn [int_digits].
  assert (H1 : n / 10 / 10 = n / 100) by (rewrite Z.div_div by lia; reflexivity).
  assert (H2 : n / 100 / 10 = n / 1000) by (rewrite Z.div_div by lia; reflexivity).
  assert (H3 : n / 1000 / 10 = n / 10000) by (rewrite Z.div_div by lia; reflexivity).
  assert (H4 : n / 10000 / 10 = n / 100000) by (rewrite Z.div_div by lia; reflexivity).
  rewrite (proj2 (Z.ltb_ge n 10)) by lia.
  rewrite (proj2 (Z.ltb_ge (n / 10) 10)) by (apply Z.div_le_lower_bound; lia).
  rewrite H1, (proj2 (Z.ltb_ge (n / 100) 10)) by (apply Z.div_le_lower_bound; lia).
  rewrite H2, (proj2 (Z.ltb_ge (n / 1000) 10)) by (apply Z.div_le_lower_bound; lia).
  rewrite H3, (proj2 (Z.ltb_ge (n / 10000) 10)) by (apply Z.div_le_lower_bound; lia).
  rewrite H4, (proj2 (Z.ltb_lt (n / 100000) 10)) by (apply Z.div_lt_upper_bound; lia).
  reflexivity.
Qed.

Lemma digit_char_is_digit (d : Z) : 0 <= d < 10 -> is_digit (digit_char d) = true.
Proof.
  intros Hd. assert (Hcases : d = 0 \/ d = 1 \/ d = 2 \/ d = 3 \/ d = 4 \/ d = 5
                              \/ d = 6 \/ d = 7 \/ d = 8 \/ d = 9) by lia.
  repeat (destruct Hcases as [->|Hcases]; [reflexivity|]). now subst d.
Qed.

Lemma str_of_int_otp (draw : Z) :
  100000 <= draw <= 999999 ->
  String.length (str_of_int draw) = 6%nat
  /\ forallb is_digit (list_ascii_of_string (str_of_int draw)) = true.
Proof.
  intros Hdraw. unfold str_of_int.
  rewrite (proj2 (Z.ltb_ge draw 0)) by lia.
  rewrite int_digits_six; [| |exact Hdraw].
  - split; [reflexivity|]. cbn [list_ascii_of_string forallb].
    rewrite !digit_char_is_digit by (apply Z.mod_pos_bound; lia). reflexivity.
  - assert (16 <= Z.log2 draw) by (change 16 with (Z.log2 100000);
                                    apply Z.log2_le_mono; lia).
    lia.
Qed.

(** X18: an OTP is six decimal digits, and it verifies once.  For a draw
    between 100000 and 999999, [generate_otp] stores and returns a text
    of six digits; supplying it back for the same address verifies and
    leaves no OTP stored for that address, whatever was stored before. *)
Theorem X18_otp_round_trip
    (draw : Z) (email : string) (otp_storage : gmap string string) :
  100000 <= draw <= 999999 ->
  let otp := fst (generate_otp_from_draw draw email otp_storage) in
  let stored := snd (generate_otp_from_draw draw email otp_storage) in
  String.length otp = 6%nat
  /\ forallb is_digit (list_ascii_of_string otp) = true
  /\ stored !! email = Some otp
  /\ EmailService.verify_otp email otp stored = (true, delete email otp_storage).
Proof.
  intros Hdraw otp stored. subst otp stored.
  unfold generate_otp_from_draw, EmailService.generate_otp. cbn [fst snd].
  destruct (str_of_int_otp draw Hdraw) as [Hlen Hdigits].
  split; [exact Hlen|]. split; [exact Hdigits|].
  split; [apply lookup_insert_eq|].
  unfold EmailService.verify_otp. rewrite lookup_insert_eq.
  destruct (String.eqb_spec (str_of_int draw) "") as [Hempty|_].
  { rewrite Hempty in Hlen. discriminate. }
  rewrite String.eqb_refl. cbn [negb andb]. now rewrite delete_insert_eq.
Qed.

Lemma X18_otp_round_trip_witness :
  String.length (fst (generate_otp_from_draw 482913 "a@b.c" ∅)) = 6%nat
  /\ forallb is_digit
       (list_ascii_of_string (fst (generate_otp_from_draw 482913 "a@b.c" ∅))) = true
  /\ snd (generate_otp_from_draw 482913 "a@b.c" ∅) !! "a@b.c"
     = Some (fst (generate_otp_from_draw 482913 "a@b.c" ∅))
  /\ EmailService.verify_otp "a@b.c" (fst (generate_otp_from_draw 482913 "a@b.c" ∅))
       (snd (generate_otp_from_draw 482913 "a@b.c" ∅))
     = (true, delete "a@b.c" ∅).
Proof.
  apply (X18_otp_round_trip 482913 "a@b.c" ∅). lia.
Defined.

Example str_of_int_ex :
  str_of_int 482913 = "482913" /\ str_of_int 0 = "0" /\ str_of_int (-45) = "-45".
Proof. repeat split; reflexivity. Qed.

(** X19: a new OTP replaces the old one.  After a second [generate_otp]
    for the same address the first OTP, when it differs from the second,
    is refused and the store is left as it was, while the second still
    verifies. *)
Theorem X19_new_otp_replaces_old
    (otp1 otp2 email : string) (otp_storage : gmap string string) :
  otp1 <> otp2 -> otp2 <> "" ->
  let stored :=
    snd (EmailService.generate_otp otp2 email
           (snd (EmailService.generate_otp otp1 email otp_storage))) in
  EmailService.verify_otp email otp1 stored = (false, stored)
  /\ EmailService.verify_otp email otp2 stored = (true, delete email otp_storage).
Proof.
  intros Hdiff Hne stored. subst stored.
  unfold EmailService.generate_otp, EmailService.verify_otp. cbn [fst snd].
  rewrite !lookup_insert_eq.
  destruct (String.eqb_spec otp2 "") as [|_]; [congruence|].
  destruct (String.eqb_spec otp2 otp1) as [|_]; [congruence|].
  rewrite String.eqb_refl. cbn [negb andb].
  split; [reflexivity|]. now rewrite !delete_insert_eq.
Qed.

Lemma X19_new_otp_replaces_old_witness :
  EmailService.verify_otp "a@b.c" "111111"
    (snd (EmailService.generate_otp "222222" "a@b.c"
            (snd (EmailService.generate_otp "111111" "a@b.c" ∅))))
  = (false,
     snd (EmailService.generate_otp "222222" "a@b.c"
            (snd (EmailService.generate_otp "111111" "a@b.c" ∅))))
  /\ EmailService.verify_otp "a@b.c" "222222"
       (snd (EmailService.generate_otp "222222" "a@b.c"
               (snd (EmailService.generate_otp "111111" "a@b.c" ∅))))
     = (true, delete "a@b.c" ∅).
Proof.
  apply (X19_new_otp_replaces_old "111111" "222222" "a@b.c" ∅); discriminate.
Defined.

(** X20: addresses do not interfere.  Generating or verifying an OTP
    for one address leaves the OTP stored for any other address as it
    was, and so the outcome of verifying that other address. *)
Theorem X20_otp_addresses_independent
    (email other otp guess : string) (otp_storage : gmap string string) :
  email <> other ->
  snd (EmailService.generate_otp otp email otp_storage) !! other = otp_storage !! other
  /\ snd (EmailService.verify_otp email otp otp_storage) !! other = otp_storage !! other
  /\ fst (EmailService.verify_otp other guess
            (snd (EmailService.verify_otp email otp otp_storage)))
     = fst (EmailService.verify_otp other guess otp_storage)
  /\ fst (EmailService.verify_otp other guess
            (snd (EmailService.generate_otp otp email otp_storage)))
     = fst (EmailService.verify_otp other guess otp_storage).
Proof.
  intros Hne.
  assert (Hgen : snd (EmailService.generate_otp otp email otp_storage) !! other
                 = otp_storage !! other).
  { unfold EmailService.generate_otp. cbn [snd]. now apply lookup_insert_ne. }
  assert (Hver : snd (EmailService.verify_otp email otp otp_storage) !! other
                 = otp_storage !! other).
  { unfold EmailService.verify_otp.
    destruct (otp_storage !! email) as [stored|]; [|reflexivity].
    destruct (negb (String.eqb stored "") && String.eqb stored otp); [|reflexivity].
    cbn [snd]. now apply lookup_delete_ne. }
  split; [exact Hgen|]. split; [exact Hver|].
  remember (snd (EmailService.verify_otp email otp otp_storage)) as s1 eqn:Hs1.
  remember (snd (EmailService.generate_otp otp email otp_storage)) as s2 eqn:Hs2.
  clear Hs1 Hs2. unfold EmailService.verify_otp. rewrite Hver, Hgen.
  split; destruct (otp_storage !! other) as [stored|]; try reflexivity;
    now destruct (negb (String.eqb stored "") && String.eqb stored guess).
Qed.

Lemma X20_otp_addresses_independent_witness :
  snd (EmailService.generate_otp "111111" "a@b.c" {[ "x@y.z" := "333333" ]}) !! "x@y.z"
  = ({[ "x@y.z" := "333333" ]} : gmap string string) !! "x@y.z"
  /\ snd (EmailService.verify_otp "a@b.c" "111111" {[ "x@y.z" := "333333" ]}) !! "x@y.z"
     = ({[ "x@y.z" := "333333" ]} : gmap string string) !! "x@y.z"
  /\ fst (EmailService.verify_otp "x@y.z" "333333"
            (snd (EmailService.verify_otp "a@b.c" "111111" {[ "x@y.z" := "333333" ]})))
     = fst (EmailService.verify_otp "x@y.z" "333333" {[ "x@y.z" := "333333" ]})
  /\ fst (EmailService.verify_otp "x@y.z" "333333"
            (snd (EmailService.generate_otp "111111" "a@b.c" {[ "x@y.z" := "333333" ]})))
     = fst (EmailService.verify_otp "x@y.z" "333333" {[ "x@y.z" := "333333" ]}).
Proof.
  apply (X20_otp_addresses_independent "a@b.c" "x@y.z" "111111" "333333"
           {[ "x@y.z" := "333333" ]}).
  discriminate.
Defined.

(** ** The page layout of the prescription *)

Lemma draw_fields_bounds (w : world) (items : dict) :
  forall (y x y' : Z) (text : string),
    100 <= y <= 800 ->
    DrawString x y' text ∈ draw_fields w items y ->
    x = 50 /\ 100 <= y' <= 800.
Proof.
  induction items as [|[key val] items IH]; intros y x y' text Hy Hin.
  - now apply elem_of_nil in Hin.
  - cbn [draw_fields] in Hin. apply elem_of_cons in Hin as [[= -> -> _]|Hin];
      [split; [reflexivity|exact Hy]|].
    cbv zeta in Hin. destruct (Z.ltb_spec (y - 16) 100).
    + apply elem_of_cons in Hin as [Heq|Hin]; [discriminate|].
      apply (IH 800 x y' text); [lia|exact Hin].
    + apply (IH (y - 16) x y' text); [lia|exact Hin].
Qed.

(** X21: nothing is drawn outside the page body.  Every text
    [generate_pdf] draws is put at x = 50 and at a height between 100 and
    800, however many fields the prescription has. *)
Theorem X21_pdf_lines_within_margins
    (w : world) (prescription : dict) (x y : Z) (text : string) :
  DrawString x y text ∈ generate_pdf_calls w prescription ->
  x = 50 /\ 100 <= y <= 800.
Proof.
  unfold generate_pdf_calls. intros Hin.
  apply elem_of_app in Hin as [Hin|Hin].
  - apply elem_of_cons in Hin as [Heq|Hin]; [discriminate|].
    apply elem_of_cons in Hin as [Heq|Hin].
    { injection Heq as -> -> _. split; [reflexivity|lia]. }
    apply elem_of_cons in Hin as [Heq|Hin]; [discriminate|].
    now apply elem_of_nil in Hin.
  - apply elem_of_app in Hin as [Hin|Hin].
    + apply (draw_fields_bounds w prescription (800 - 30) x y text); [lia|exact Hin].
    + repeat (apply elem_of_cons in Hin as [Heq|Hin]; [discriminate|]).
      now apply elem_of_nil in Hin.
Qed.

Lemma X21_pdf_lines_within_margins_witness : 50 = 50 /\ 100 <= 770 <= 800.
Proof.
  apply (X21_pdf_lines_within_margins (world_with None) [("Name", PStr "Asha")]
           50 770 "Name: Asha").
  vm_compute. do 3 right. left.
Defined.

Lemma drawn_texts_draw_fields (w : world) (items : dict) :
  forall y : Z, drawn_texts (draw_fields w items y) = map (field_line w) items.
Proof.
  induction items as [|[key val] items IH]; intros y; [reflexivity|].
  cbn [draw_fields map]. cbv zeta. unfold drawn_texts in *. cbn [omap list_omap].
  f_equal. destruct (y - 16 <? 100); [cbn [list_omap]|]; apply IH.
Qed.

(** X22: the document says what the prescription says.  The texts drawn
    are, in order, the title and then one line "key: value" for each
    field of the prescription, in the order of the fields: no field is
    left out, repeated or reordered by the page breaks. *)
Theorem X22_pdf_texts (w : world) (prescription : dict) :
  drawn_texts (generate_pdf_calls w prescription)
  = "Vit Healthcare Prescription" :: map (field_line w) prescription.
Proof.
  unfold generate_pdf_calls, drawn_texts. cbn [app omap list_omap]. f_equal.
  change (list_omap _ _ ?f ?l) with (omap f l).
  rewrite omap_app. fold (drawn_texts (draw_fields w prescription (800 - 30))).
  rewrite drawn_texts_draw_fields. cbn. apply app_nil_r.
Qed.

Lemma draw_fields_one_page (w : world) (items : dict) :
  forall y : Z,
    100 <= y - 16 * Z.of_nat (length items) ->
    draw_fields w items y
    = imap (fun i kv => DrawString 50 (y - 16 * Z.of_nat i) (field_line w kv)) items.
Proof.
  induction items as [|[key val] items IH]; intros y Hy; [reflexivity|].
  cbn [draw_fields imap]. cbv zeta. cbn [length] in Hy.
  rewrite (proj2 (Z.ltb_ge (y - 16) 100)) by lia.
  rewrite IH by lia. f_equal.
  - now rewrite Z.mul_0_r, Z.sub_0_r.
  - apply imap_ext. intros i kv _. cbn. f_equal. lia.
Qed.

Lemma pages_lines (f : nat -> string * pyval -> canvas_op) (l : dict) :
  (forall i kv, exists x y text, f i kv = DrawString x y text) ->
  List.filter (fun op => match op with ShowPage => true | _ => false end) (imap f l) = [].
Proof.
  revert f. induction l as [|kv l IH]; intros f Hf; [reflexivity|].
  cbn [imap List.filter]. destruct (Hf 0%nat kv) as (x & y & text & ->).
  apply IH. intros i kv'. apply Hf.
Qed.

(** X23: up to 41 fields fit on one page.  For a prescription of at most
    41 fields, the 13 of the handler's among them, [generate_pdf] draws
    field number i (from 0) at height 770 - 16 i and emits a single page. *)
Theorem X23_pdf_single_page (w : world) (prescription : dict) :
  (length prescription <= 41)%nat ->
  generate_pdf_calls w prescription
  = pdf_header
    ++ imap (fun i kv => DrawString 50 (770 - 16 * Z.of_nat i) (field_line w kv))
         prescription
    ++ [ShowPage; Save]
  /\ pages (generate_pdf_calls w prescription) = 1%nat.
Proof.
  intros Hlen.
  assert (Hcalls : generate_pdf_calls w prescription
                   = pdf_header
                     ++ imap (fun i kv => DrawString 50 (770 - 16 * Z.of_nat i)
                                            (field_line w kv)) prescription
                     ++ [ShowPage; Save]).
  { unfold generate_pdf_calls. fold pdf_header.
    now rewrite (draw_fields_one_page w prescription (800 - 30)) by lia. }
  split; [exact Hcalls|]. rewrite Hcalls. unfold pages, pdf_header.
  rewrite !List.filter_app, !length_app. cbn [List.filter length].
  rewrite pages_lines; [reflexivity|]. intros i kv. eauto.
Qed.

Lemma X23_pdf_single_page_witness :
  generate_pdf_calls (world_with None) [("Name", PStr "Asha"); ("Sex", PStr "female")]
  = pdf_header
    ++ imap (fun i kv => DrawString 50 (770 - 16 * Z.of_nat i)
                           (field_line (world_with None) kv))
         [("Name", PStr "Asha"); ("Sex", PStr "female")]
    ++ [ShowPage; Save]
  /\ pages (generate_pdf_calls (world_with None)
              [("Name", PStr "Asha"); ("Sex", PStr "female")]) = 1%nat.
Proof.
  apply (X23_pdf_single_page (world_with None)
           [("Name", PStr "Asha"); ("Sex", PStr "female")]).
  cbn. lia.
Defined.

Lemma draw_fields_last_breaks (w : world) (items : dict) (kv : string * pyval) :
  forall y : Z,
    100 <= y - 16 * Z.of_nat (length items) ->
    y - 16 * Z.of_nat (length items) - 16 < 100 ->
    draw_fields w (items ++ [kv]) y
    = imap (fun i kv => DrawString 50 (y - 16 * Z.of_nat i) (field_line w kv))
        (items ++ [kv])
      ++ [ShowPage].
Proof.
  induction items as [|[key val] items IH]; intros y Hfit Hbreak.
  - destruct kv as [key val]. cbn [app draw_fields imap length] in *. cbv zeta.
    rewrite (proj2 (Z.ltb_lt (y - 16) 100)) by lia.
    cbn. now rewrite Z.sub_0_r.
  - cbn [app draw_fields imap]. cbv zeta. cbn [length] in Hfit, Hbreak.
    rewrite (proj2 (Z.ltb_ge (y - 16) 100)) by lia.
    rewrite IH by lia. cbn [app]. f_equal.
    + now rewrite Z.mul_0_r, Z.sub_0_r.
    + f_equal. apply imap_ext. intros i kv' _. cbn. f_equal. lia.
Qed.

(** X24: the page break at the bottom margin leaves an empty page.  With
    exactly 42 fields the last line is drawn at height 114, the break
    that follows it and the final page end come one after the other, and
    the document has a second page with nothing on it. *)
Theorem X24_pdf_trailing_empty_page (w : world) (prescription : dict) :
  length prescription = 42%nat ->
  generate_pdf_calls w prescription
  = pdf_header
    ++ imap (fun i kv => DrawString 50 (770 - 16 * Z.of_nat i) (field_line w kv))
         prescription
    ++ [ShowPage; ShowPage; Save]
  /\ pages (generate_pdf_calls w prescription) = 2%nat.
Proof.
  intros Hlen.
  destruct (@exists_last _ prescription) as (items & kv & Heq);
    [intros ->; discriminate|]. subst prescription.
  rewrite length_app in Hlen. cbn [length] in Hlen.
  assert (Hcalls : generate_pdf_calls w (items ++ [kv])
                   = pdf_header
                     ++ imap (fun i kv => DrawString 50 (770 - 16 * Z.of_nat i)
                                            (field_line w kv)) (items ++ [kv])
                     ++ [ShowPage; ShowPage; Save]).
  { unfold generate_pdf_calls. fold pdf_header.
    rewrite (draw_fields_last_breaks w items kv (800 - 30)) by lia.
    now rewrite <- app_assoc. }
  split; [exact Hcalls|]. rewrite Hcalls. unfold pages, pdf_header.
  rewrite !List.filter_app, !length_app. cbn [List.filter length].
  rewrite pages_lines; [reflexivity|]. intros i kv'. eauto.
Qed.

Lemma X24_pdf_trailing_empty_page_witness :
  generate_pdf_calls (world_with None) (replicate 42 ("Note", PStr "rest"))
  = pdf_header
    ++ imap (fun i kv => DrawString 50 (770 - 16 * Z.of_nat i)
                           (field_line (world_with None) kv))
         (replicate 42 ("Note", PStr "rest"))
    ++ [ShowPage; ShowPage; Save]
  /\ pages (generate_pdf_calls (world_with None)
              (replicate 42 ("Note", PStr "rest"))) = 2%nat.
Proof.
  apply (X24_pdf_trailing_empty_page (world_with None)
           (replicate 42 ("Note", PStr "rest"))).
  reflexivity.
Defined.

(** ** The meeting link of a virtual appointment *)

Lemma contains_char_cons (c x : ascii) (s : string) :
  PyStr.contains (String c "") (String x s)
  = Ascii.eqb x c || PyStr.contains (String c "") s.
Proof.
  cbn [PyStr.contains String.prefix].
  destruct (ascii_dec c x) as [<-|Hne].
  - rewrite Ascii.eqb_refl. now destruct s.
  - destruct (Ascii.eqb_spec x c); [congruence|reflexivity].
Qed.

Lemma contains_char_append (c : ascii) (a b : string) :
  PyStr.contains (String c "") (a +:+ b)
  = PyStr.contains (String c "") a || PyStr.contains (String c "") b.
Proof.
  induction a as [|x a IH]; [reflexivity|].
  rewrite append_cons, !contains_char_cons, IH. apply orb_assoc.
Qed.

Lemma replace_char_removes (c : ascii) (new s : string) :
  PyStr.contains (String c "") new = false ->
  PyStr.contains (String c "") (replace_char c new s) = false.
Proof.
  intros Hnew. induction s as [|x s IH]; [reflexivity|]. cbn [replace_char].
  destruct (Ascii.eqb x c) eqn:Hx.
  - now rewrite contains_char_append, Hnew, IH.
  - now rewrite contains_char_cons, Hx, IH.
Qed.

(** X25: the meeting link holds no space.  Whatever the doctor's name
    and the appointment time, the link built for a virtual appointment
    (and the empty link of any other) contains no space character: the
    spaces of the name are dropped and those of the time become "T". *)
Theorem X25_meeting_link_has_no_space
    (appointment_type doctor appointment_time : string) :
  PyStr.contains " " (meeting_link appointment_type doctor appointment_time) = false.
Proof.
  unfold meeting_link.
  destruct (String.eqb (PyStr.lower appointment_type) "virtual"); [|reflexivity].
  rewrite !contains_char_append.
  rewrite (replace_char_removes " " "" doctor eq_refl).
  rewrite (replace_char_removes " " "T" appointment_time eq_refl).
  reflexivity.
Qed.

Example meeting_link_ex :
  meeting_link "Virtual" "Dr. Priya Sharma" "2025-01-01 10:30"
  = "https://webex.example.com/meet/Dr.PriyaSharma-2025-01-01T10:30".
Proof. reflexivity. Qed.
